(** * Chatty: document chunking, embedding, storage and query pipeline

    A shallow embedding of the Python sources

      - [utils/document_processor.py]  (class [DocumentProcessor])
      - [utils/embedding_service.py]   (class [EmbeddingService])
      - [database/supabase_client.py]  (class [SupabaseClient])
      - [utils/llm_service.py]         (class [LLMService])
      - [document_uploader.py]         ([upload_documents])
      - [app.py]                       ([format_sources], the chat handler of [main])

    Python dictionaries are finite maps from strings to a universe of
    Python values, exceptions are an explicit result type, the dict
    objects that [embed_chunks] mutates in place live in an object
    store addressed by references, and the collaborators outside the
    repository (langchain splitters, the embedding and generation
    services, the database, the file system) are variables of the
    sections that use them. *)

From Stdlib Require Import Ascii String.
From stdpp Require Import gmap strings list fin_maps pretty.

Set Warnings "-register-all,-clear-no-such-hyp".
Set Default Proof Using "Type".

(** ** Python values, exceptions and results *)

(** The values that occur in chunk dictionaries.  [F] is the type of
    Python floats, which the code only passes along. *)
Inductive value (F : Type) : Type :=
| VNone
| VStr (s : string)
| VInt (n : Z)
| VBool (b : bool)
| VFloat (x : F)
| VList (l : list (value F))
| VDict (d : gmap string (value F)).

Arguments VNone {F}.
Arguments VStr {F} s.
Arguments VInt {F} n.
Arguments VBool {F} b.
Arguments VFloat {F} x.
Arguments VList {F} l.
Arguments VDict {F} d.

(** The exceptions the modelled code raises or lets through. *)
Inductive exn : Type :=
| KeyError (key : string)
| IndexError
| AttributeError (type_name : string)
| ValueError (msg : string)
| Exception (msg : string).

(** [str(e)] *)
Definition exn_str (e : exn) : string :=
  match e with
  | KeyError k => "'" +:+ k +:+ "'"
  | IndexError => "list index out of range"
  | AttributeError t => "'" +:+ t +:+ "' object has no attribute 'get'"
  | ValueError m => m
  | Exception m => m
  end.

Inductive result (A : Type) : Type :=
| Ok (a : A)
| Raise (e : exn).

Arguments Ok {A} a.
Arguments Raise {A} e.

#[global] Instance result_ret : MRet result := fun A a => Ok a.
#[global] Instance result_bind : MBind result := fun A B f r =>
  match r with
  | Ok a => f a
  | Raise e => Raise e
  end.

(** [try: body  except Exception as e: handler(e)] *)
Definition try_except {A} (body : result A) (handler : exn -> result A) : result A :=
  match body with
  | Ok a => Ok a
  | Raise e => handler e
  end.

(** [for i, x in enumerate(xs, start)] iterates over these pairs. *)
Definition enumerate {A} (start : nat) (xs : list A) : list (nat * A) :=
  imap (fun i x => (start + i, x)) xs.

(** ** Python string built-ins on ASCII text *)

Definition is_upper (c : ascii) : bool :=
  (65 <=? nat_of_ascii c)%nat && (nat_of_ascii c <=? 90)%nat.

Definition lower_char (c : ascii) : ascii :=
  if is_upper c then ascii_of_nat (nat_of_ascii c + 32) else c.

(** [s.lower()] *)
Fixpoint lower (s : string) : string :=
  match s with
  | EmptyString => EmptyString
  | String c s' => String (lower_char c) (lower s')
  end.

(** Two characters that are equal or are the upper-case and lower-case
    form of one letter. *)
Definition case_variant (a b : ascii) : bool :=
  bool_decide (a = b)
  || (is_upper a && bool_decide (nat_of_ascii b = nat_of_ascii a + 32))
  || (is_upper b && bool_decide (nat_of_ascii a = nat_of_ascii b + 32)).

(** Two texts that differ only in letter case. *)
Fixpoint differ_only_in_case (s t : string) : bool :=
  match s, t with
  | EmptyString, EmptyString => true
  | String a s', String b t' => case_variant a b && differ_only_in_case s' t'
  | _, _ => false
  end.

(** [sub in s] *)
Fixpoint str_in (sub s : string) : bool :=
  String.prefix sub s ||
  match s with
  | EmptyString => false
  | String _ s' => str_in sub s'
  end.

(** [c.isspace()] *)
Definition is_space (c : ascii) : bool :=
  let n := nat_of_ascii c in
  ((9 <=? n)%nat && (n <=? 13)%nat) || ((28 <=? n)%nat && (n <=? 32)%nat).

Fixpoint lstrip (s : string) : string :=
  match s with
  | EmptyString => EmptyString
  | String c s' => if is_space c then lstrip s' else s
  end.

Fixpoint rstrip (s : string) : string :=
  match s with
  | EmptyString => EmptyString
  | String c s' =>
      let r := rstrip s' in
      if is_space c && bool_decide (r = EmptyString) then EmptyString else String c r
  end.

(** [s.strip()] *)
Definition strip (s : string) : string := rstrip (lstrip s).

Fixpoint count_words (in_word : bool) (s : string) : nat :=
  match s with
  | EmptyString => 0
  | String c s' =>
      if is_space c then count_words false s'
      else ((if in_word then 0 else 1) + count_words true s')%nat
  end.

(** [len(s.split())] *)
Definition word_count (s : string) : nat := count_words false s.

(** [os.path.basename(p)]: what follows the last slash. *)
Fixpoint basename (p : string) : string :=
  match p with
  | EmptyString => EmptyString
  | String _ p' => if str_in "/" p then basename p' else p
  end.

Fixpoint split_last_dot (s : string) : option (string * string) :=
  match s with
  | EmptyString => None
  | String c s' =>
      match split_last_dot s' with
      | Some (root, ext) => Some (String c root, ext)
      | None => if bool_decide (c = "."%char) then Some (EmptyString, s) else None
      end
  end.

Fixpoint all_dots (s : string) : bool :=
  match s with
  | EmptyString => true
  | String c s' => bool_decide (c = "."%char) && all_dots s'
  end.

(** [os.path.splitext(p)]: the extension starts at the last dot of the
    last path component, unless only dots precede it there. *)
Definition splitext (p : string) : string * string :=
  let base := basename p in
  let dir := String.substring 0 (String.length p - String.length base) p in
  match split_last_dot base with
  | Some (root, ext) => if all_dots root then (p, EmptyString) else (dir +:+ root, ext)
  | None => (p, EmptyString)
  end.

(** [sep.join(parts)] *)
Fixpoint join (sep : string) (parts : list string) : string :=
  match parts with
  | [] => EmptyString
  | [x] => x
  | x :: rest => x +:+ sep +:+ join sep rest
  end.

(** ** Chunk dictionaries *)

Section Chunks.
Context {F : Type}.

(** [chunk["metadata"][key]], when [chunk["metadata"]] is a dict. *)
Definition metadata_get (chunk : gmap string (value F)) (key : string) : option (value F) :=
  match chunk !! "metadata" with
  | Some (VDict md) => md !! key
  | _ => None
  end.

(** [chunk["metadata"][key] = v] *)
Definition metadata_set (key : string) (v : value F) (chunk : gmap string (value F))
  : gmap string (value F) :=
  alter (fun m => match m with VDict md => VDict (<[key := v]> md) | _ => m end)
        "metadata" chunk.

(** [d[key]] *)
Definition getitem (d : gmap string (value F)) (key : string) : result (value F) :=
  match d !! key with
  | Some v => Ok v
  | None => Raise (KeyError key)
  end.

End Chunks.

(** A langchain [Document]: the text of a header section and the
    headers that enclose it. *)
Record Document : Type := {
  page_content : string;
  metadata : gmap string string
}.

(** ** utils/document_processor.py: the keyword tables *)

Definition claims_words : list string := ["claim"; "injury"; "compensation"; "benefits"].
Definition legal_words : list string := ["law"; "regulation"; "policy"; "rule"].
Definition procedural_words : list string := ["process"; "step"; "procedure"; "how to"].
Definition contact_words : list string := ["contact"; "phone"; "email"; "address"].

Definition keywords : list string :=
  [ "workers compensation"; "injury"; "claim"; "benefits"; "medical";
    "rehabilitation"; "return to work"; "permanent impairment"; "weekly payments";
    "employer"; "employee"; "insurance"; "legal"; "appeal"; "dispute" ].

(** [any(word in text_lower for word in words)] *)
Definition any_in (words : list string) (text_lower : string) : bool :=
  existsb (fun word => str_in word text_lower) words.

(** The [if]/[elif] chain that sets [content_type]. *)
Definition classify (text_lower : string) : string :=
  if any_in claims_words text_lower then "claims"
  else if any_in legal_words text_lower then "legal"
  else if any_in procedural_words text_lower then "procedural"
  else if any_in contact_words text_lower then "contact"
  else "general".

(** The loop [for keyword in keywords: if keyword in text_lower:
    key_topics.append(keyword)]. *)
Definition extract_topics (text_lower : string) : list string :=
  foldl (fun key_topics keyword =>
           if str_in keyword text_lower then key_topics ++ [keyword] else key_topics)
        [] keywords.

Record semantic_info : Type := {
  content_type : string;
  key_topics : list string
}.

Definition _extract_semantic_info (text : string) : semantic_info :=
  let text_lower := lower text in
  {| content_type := classify text_lower;
     key_topics := extract_topics text_lower |}.

(** [a or b] on strings *)
Definition str_or (a b : string) : string :=
  if bool_decide (a = EmptyString) then b else a.

(** [split.metadata.get('Header 1', '') or split.metadata.get('Header 2', '')
     or split.metadata.get('Header 3', '')] *)
Definition header_info_of (split : Document) : string :=
  str_or (str_or (default EmptyString (metadata split !! "Header 1"))
                 (default EmptyString (metadata split !! "Header 2")))
         (default EmptyString (metadata split !! "Header 3")).

(** [len(split.page_content) > Config.CHUNK_SIZE] *)
Definition exceeds_chunk_size (CHUNK_SIZE : Z) (content : string) : bool :=
  bool_decide (CHUNK_SIZE < Z.of_nat (String.length content))%Z.

(** [self.token_splitter = TokenTextSplitter(chunk_size=Config.CHUNK_SIZE,
    chunk_overlap=Config.CHUNK_OVERLAP, encoding_name="cl100k_base")] of
    [__init__], as the function its [split_text] computes;
    [TokenTextSplitter] is langchain's. *)
Definition init_token_splitter
    (TokenTextSplitter : Z -> Z -> string -> string -> result (list string))
    (CHUNK_SIZE CHUNK_OVERLAP : Z) : string -> result (list string) :=
  TokenTextSplitter CHUNK_SIZE CHUNK_OVERLAP "cl100k_base".

(** [file_extension in ['.md', '.markdown']] *)
Definition is_markdown_extension (file_extension : string) : bool :=
  bool_decide (file_extension = ".md") || bool_decide (file_extension = ".markdown").

(** The result dictionary of [process_document]. *)
Record doc_info (F : Type) : Type := {
  di_filename : string;
  di_title : string;
  di_content_type : string;
  di_file_size : Z;
  di_chunks : list (gmap string (value F));
  di_total_chunks : nat
}.

Arguments di_filename {F} _.
Arguments di_title {F} _.
Arguments di_content_type {F} _.
Arguments di_file_size {F} _.
Arguments di_chunks {F} _.
Arguments di_total_chunks {F} _.


(** ** Loops that may raise *)

(** [for x in xs: st = f(st, x)], stopping at the first exception. *)
Fixpoint for_each {A S : Type} (f : S -> A -> result S) (xs : list A) (st : S) : result S :=
  match xs with
  | [] => Ok st
  | x :: rest => st' ← f st x; for_each f rest st'
  end.

(** [[f(x) for x in xs]], stopping at the first exception. *)
Fixpoint comprehension {A B : Type} (f : A -> result B) (xs : list A) : result (list B) :=
  match xs with
  | [] => Ok []
  | x :: rest => y ← f x; ys ← comprehension f rest; mret (y :: ys)
  end.

(** ** The object store *)

(** References to dict objects, and the object store. *)
Definition loc : Type := nat.


(** ** Rows of the two tables *)

Record document_row : Type := {
  doc_id : string;
  doc_filename : string;
  doc_title : string;
  doc_content_type : string;
  doc_file_size : Z
}.

Record chunk_row (F : Type) : Type := {
  row_document_id : string;
  row_chunk_index : Z;
  row_content : value F;
  row_metadata : string;
  row_embedding : value F
}.

Arguments row_document_id {F} _.
Arguments row_chunk_index {F} _.
Arguments row_content {F} _.
Arguments row_metadata {F} _.
Arguments row_embedding {F} _.

(** The two tables [chat_bot_documents] and [chat_bot_document_chunks]. *)
Record database (F : Type) : Type := {
  chat_bot_documents : list document_row;
  chat_bot_document_chunks : list (chunk_row F)
}.

Arguments chat_bot_documents {F} _.
Arguments chat_bot_document_chunks {F} _.


(** ** Calls to the services, recorded in the order they are made *)

Inductive call (F : Type) : Type :=
| GetEmbedding (text : string)
| SearchSimilarChunks (query_embedding : list F)
| GenerateResponse (question : string) (context_chunks : list (gmap string (value F)))
| CallOpenRouter (prompt : string).

Arguments GetEmbedding {F} text.
Arguments SearchSimilarChunks {F} query_embedding.
Arguments GenerateResponse {F} question context_chunks.
Arguments CallOpenRouter {F} prompt.

(** A computation that records its calls and may raise. *)
Definition traced (F A : Type) : Type := list (call F) * result A.

Definition traced_ret {F A} (a : A) : traced F A := ([], Ok a).

Definition traced_bind {F A B} (m : traced F A) (f : A -> traced F B) : traced F B :=
  match m.2 with
  | Ok a => (m.1 ++ (f a).1, (f a).2)
  | Raise e => (m.1, Raise e)
  end.

(** A computation that makes no call. *)
Definition quiet {F A} (r : result A) : traced F A := ([], r).

(** The call [c], answered by [r]. *)
Definition invoke {F A} (c : call F) (r : result A) : traced F A := ([c], r).

Definition is_generation {F} (c : call F) : bool :=
  match c with
  | GenerateResponse _ _ | CallOpenRouter _ => true
  | _ => false
  end.

(** How many of the recorded calls went to the generation service. *)
Definition generation_calls {F} (tr : list (call F)) : nat :=
  length (filter (fun c => is_generation c = true) tr).


(** ** Formatting *)

Definition newline : string := String (ascii_of_nat 10) EmptyString.

(** [str(v)] as an f-string inserts it; [repr] covers what is not a string. *)
Definition py_str {F} (repr : value F -> string) (v : value F) : string :=
  match v with
  | VStr s => s
  | _ => repr v
  end.

(** [type(v).__name__] *)
Definition type_name {F} (v : value F) : string :=
  match v with
  | VNone => "NoneType"
  | VStr _ => "str"
  | VInt _ => "int"
  | VBool _ => "bool"
  | VFloat _ => "float"
  | VList _ => "list"
  | VDict _ => "dict"
  end.

(** [metadata.get(key, fallback)] on whatever [metadata] turned out to be. *)
Definition value_get {F} (metadata : value F) (key : string) (fallback : value F)
  : result (value F) :=
  match metadata with
  | VDict d => Ok (default fallback (d !! key))
  | _ => Raise (AttributeError (type_name metadata))
  end.

(** ** app.py: the fixed messages *)

Definition insufficient_knowledge : string :=
  "I don't have enough information in my knowledge base to answer your question accurately. Please ensure relevant workers' compensation documents have been uploaded.".

Definition no_sources : string := "No relevant sources found.".

(** The re-split criterion in the words of the specification: the
    section's length, measured in tokens by [token_count], exceeds the
    chunk size. *)
Definition exceeds_in_tokens (token_count : string -> nat) (CHUNK_SIZE : Z)
    (content : string) : bool :=
  bool_decide (CHUNK_SIZE < Z.of_nat (token_count content))%Z.

(** The sub-chunks of a header section under that criterion. *)
Definition sub_chunks_by_token_count (token_count : string -> nat) (CHUNK_SIZE : Z)
    (token_splitter : string -> result (list string)) (content : string)
  : result (list string) :=
  if exceeds_in_tokens token_count CHUNK_SIZE content
  then token_splitter content
  else Ok [content].

(** [s * n] *)
Fixpoint repeat_string (s : string) (n : nat) : string :=
  match n with
  | 0 => EmptyString
  | S n' => s +:+ repeat_string s n'
  end.


(** ** Sample collaborators

    Small executable stand-ins for the collaborators outside the
    repository, used to run the model on concrete inputs. *)

Fixpoint chop (fuel n : nat) (s : string) : list string :=
  match fuel with
  | 0 => []
  | S fuel' =>
      if bool_decide (s = EmptyString) then []
      else String.substring 0 n s
           :: chop fuel' n (String.substring n (String.length s - n) s)
  end.

(** A splitter that cuts the text into pieces of [n] characters and,
    like the reference tokenizer, refuses text that spells out a
    special token. *)
Definition sample_token_splitter (n : nat) (text : string) : result (list string) :=
  if str_in "<|endoftext|>" text
  then Raise (ValueError "Encountered text corresponding to disallowed special token")
  else Ok (chop (String.length text) n text).

(** A [TokenTextSplitter] whose tokens are characters. *)
Definition sample_TokenTextSplitter (chunk_size chunk_overlap : Z)
    (encoding_name : string) : string -> result (list string) :=
  sample_token_splitter (Z.to_nat chunk_size).

Fixpoint lines_of (current s : string) : list string :=
  match s with
  | EmptyString => [current]
  | String c s' =>
      if bool_decide (c = ascii_of_nat 10) then current :: lines_of EmptyString s'
      else lines_of (current +:+ String c EmptyString) s'
  end.

Definition flush_section (header : string) (content : list string)
    (sections : list Document) : list Document :=
  match content with
  | [] => sections
  | _ :: _ =>
      sections ++
      [{| page_content := join (String (ascii_of_nat 10) EmptyString) content;
          metadata := if bool_decide (header = EmptyString) then ∅
                      else {[ "Header 1" := header ]} |}]
  end.

Fixpoint sections_of (lines : list string) (header : string) (content : list string)
    (sections : list Document) : list Document :=
  match lines with
  | [] => flush_section header content sections
  | line :: rest =>
      let stripped := strip line in
      if String.prefix "# " stripped
      then sections_of rest (strip (String.substring 2 (String.length stripped - 2) stripped))
                       [] (flush_section header content sections)
      else if bool_decide (stripped = EmptyString)
      then sections_of rest header content sections
      else sections_of rest header (content ++ [stripped]) sections
  end.

(** A header splitter for level-1 headings. *)
Definition sample_markdown_splitter (text : string) : result (list Document) :=
  Ok (sections_of (lines_of EmptyString text) EmptyString [] []).

(** A header splitter that always fails. *)
Definition failing_markdown_splitter (text : string) : result (list Document) :=
  Raise (Exception "header split failed").

Definition is_letter (c : ascii) : bool :=
  is_upper c || ((97 <=? nat_of_ascii c)%nat && (nat_of_ascii c <=? 122)%nat).

Fixpoint count_pieces (in_word : bool) (s : string) : nat :=
  match s with
  | EmptyString => 0
  | String c s' =>
      if is_letter c then ((if in_word then 0 else 1) + count_pieces true s')%nat
      else if is_space c then count_pieces false s'
      else S (count_pieces false s')
  end.

(** A token count in the manner of a subword tokenizer on plain
    English: one token per word and per punctuation mark. *)
Definition sample_token_count (s : string) : nat := count_pieces false s.

(** An embedding service with one-dimensional vectors that, like the
    real one, rejects empty input. *)
Definition sample_vector (v : value Z) : result (list Z) :=
  match v with
  | VStr s =>
      if bool_decide (s = EmptyString) then Raise (Exception "input must not be empty")
      else Ok [Z.of_nat (String.length s)]
  | _ => Raise (Exception "input must be a string")
  end.

Definition sample_embeddings_create (input : value Z) : result (list (list Z)) :=
  match input with
  | VList texts => comprehension sample_vector texts
  | v => embedding ← sample_vector v; mret [embedding]
  end.

(** A store that numbers its documents and refuses nothing. *)
Definition sample_generated_id (db : database Z) : string :=
  "doc-" +:+ pretty (length (chat_bot_documents db)).

Definition no_document_fault (db : database Z) (filename : string) : option exn := None.
Definition no_chunk_fault (db : database Z) (rows : list (chunk_row Z)) : option exn := None.

Definition empty_database : database Z :=
  {| chat_bot_documents := []; chat_bot_document_chunks := [] |}.

(** A result without its exception. *)
Definition to_option {A} (r : result A) : option A :=
  match r with
  | Ok a => Some a
  | Raise _ => None
  end.

(** A two-section Markdown text. *)
Definition sample_markdown : string :=
  "# Benefits" +:+ newline +:+ "You may claim weekly payments." +:+ newline +:+
  "# Appeals" +:+ newline +:+ "You may appeal within 28 days.".

(** A file system with two PDF files; the second piece of eight
    characters of [notes.pdf] is blank. *)
Definition sample_pdf_text (file_path : string) : result string :=
  if bool_decide (file_path = "docs/guide.pdf")
  then Ok "You may claim weekly payments."
  else if bool_decide (file_path = "docs/notes.pdf")
  then Ok "Injury          claims."
  else Raise (Exception ("Error extracting text from PDF " +:+ file_path)).

Definition sample_markdown_text (file_path : string) : result string :=
  Raise (Exception ("Error extracting text from Markdown " +:+ file_path)).

Definition sample_getsize (file_path : string) : result Z := Ok 1024%Z.

Definition sample_json_dumps (v : value Z) : string := "{}".

Definition sample_json_loads (s : string) : result (value Z) :=
  Raise (ValueError "Expecting value").

Definition sample_repr (v : value Z) : string := "?".

Definition sample_format_2f (v : value Z) : result string := Ok "1.00".

(** A retrieval result, and a store that returns it for the one query
    vector that is close to it. *)
Definition sample_result : gmap string (value Z) :=
  {[ "content" := VStr "You may appeal within 28 days.";
     "metadata" := VDict {[ "filename" := VStr "guide.md"; "title" := VStr "guide" ]};
     "similarity" := VFloat 1%Z ]}.

Definition sample_match_documents (query_embedding : list Z) (threshold : Z) (top_k : Z)
  : result (list (gmap string (value Z))) :=
  if bool_decide (query_embedding = [16%Z]) then Ok [sample_result] else Ok [].

Definition sample_openrouter (prompt : string) : result string :=
  Ok "You may appeal within 28 days [1].".



(** Two chunk objects without embeddings, and a third object. *)
Definition sample_store : gmap loc (gmap string (value Z)) :=
  {[ 0 := {[ "content" := VStr "Injury"; "metadata" := VDict {[ "chunk_index" := VInt 0 ]} ]};
     1 := {[ "content" := VStr "claims."; "metadata" := VDict {[ "chunk_index" := VInt 1 ]} ]};
     2 := {[ "content" := VStr "elsewhere" ]} ]}.

(** Chunks whose own [chunk_index] disagrees with their position. *)
Definition sample_embedded_chunks : list (gmap string (value Z)) :=
  [ {[ "content" := VStr "Injury";
       "metadata" := VDict {[ "chunk_index" := VInt 7 ]};
       "embedding" := VList [VFloat 6%Z] ]};
    {[ "content" := VStr "claims.";
       "metadata" := VDict {[ "chunk_index" := VInt 7 ]};
       "embedding" := VList [VFloat 7%Z] ]} ].


(** A Markdown text whose only section spells out a special token. *)
Definition sample_marked_markdown : string :=
  "# Tokens" +:+ newline +:+ "The marker <|endoftext|> closes a document.".

(** A header section of 1213 characters and some two hundred words that
    spells out a special token, and a Markdown text with this one
    section. *)
Definition sample_marked_section : string :=
  repeat_string "claim " 200 +:+ "<|endoftext|>".

Definition sample_long_marked_markdown : string :=
  "# Claims" +:+ newline +:+ sample_marked_section.

(** Embedding services that answer with one vector too few and with
    one vector too many. *)
Definition short_embeddings_create (input : value Z) : result (list (list Z)) :=
  embeddings ← sample_embeddings_create input; mret (take (length embeddings - 1) embeddings).

Definition long_embeddings_create (input : value Z) : result (list (list Z)) :=
  embeddings ← sample_embeddings_create input; mret (embeddings ++ [[0%Z]]).

(** An embedding service that is out of quota. *)
Definition failing_embeddings_create (input : value Z) : result (list (list Z)) :=
  Raise (Exception "quota exceeded").

(** A store that refuses every chunk insert, and one that answers
    every select. *)
Definition refuse_chunks (db : database Z) (rows : list (chunk_row Z)) : option exn :=
  Some (Exception "chunk insert refused").

Definition no_select_fault (db : database Z) : option exn := None.

(** A formatter that rejects what it is given. *)
Definition failing_format_2f (v : value Z) : result string :=
  Raise (ValueError "Unknown format code 'f'").

(** A store in which the second chunk object has no content. *)
Definition sample_store_without_content : gmap loc (gmap string (value Z)) :=
  {[ 0 := {[ "content" := VStr "Injury" ]};
     1 := {[ "metadata" := VDict ∅ ]} ]}.

(** Chunks of which the second has no embedding. *)
Definition sample_unembedded_chunks : list (gmap string (value Z)) :=
  [ {[ "content" := VStr "Injury";
       "metadata" := VDict ∅;
       "embedding" := VList [VFloat 6%Z] ]};
    {[ "content" := VStr "claims.";
       "metadata" := VDict ∅ ]} ].


Section Chatty.
Context {F : Type}.

(** ** utils/document_processor.py: [DocumentProcessor] *)

(** [Config.CHUNK_SIZE] and the two splitters that the methods read
    from [self]; either splitter may raise.  In a [DocumentProcessor]
    object [token_splitter] is the one that [init_token_splitter]
    builds. *)
Variable CHUNK_SIZE : Z.
Variable markdown_splitter : string -> result (list Document).
Variable token_splitter : string -> result (list string).

(** The file system and the PDF and Markdown readers. *)
Variable extract_text_from_pdf : string -> result string.
Variable extract_text_from_markdown : string -> result string.
Variable getsize : string -> result Z.

(** The dictionary built for one sub-chunk on the Markdown path. *)
Definition markdown_chunk (filename title header_info : string)
    (chunk_index i total_sub_chunks : nat) (chunk_text : string) : gmap string (value F) :=
  {[ "content" := VStr (strip chunk_text);
     "metadata" := VDict (list_to_map
       [ ("filename", VStr filename);
         ("title", VStr title);
         ("chunk_index", VInt (Z.of_nat chunk_index));
         ("section_header", VStr header_info);
         ("file_type", VStr "markdown");
         ("semantic_split", VBool true);
         ("sub_chunk_index", VInt (Z.of_nat i));
         ("total_sub_chunks", VInt (Z.of_nat total_sub_chunks)) ]) ]}.

(** The inner loop [for i, chunk_text in enumerate(sub_chunks)], on the
    state [(chunks, chunk_index)]. *)
Definition append_sub_chunks (filename title header_info : string)
    (sub_chunks : list string) (st : list (gmap string (value F)) * nat)
  : list (gmap string (value F)) * nat :=
  foldl (fun st ic =>
           (st.1 ++ [markdown_chunk filename title header_info st.2 ic.1
                       (length sub_chunks) ic.2],
            S st.2))
        st (enumerate 0 sub_chunks).

(** [sub_chunks] of one header section. *)
Definition sub_chunks_of (split : Document) : result (list string) :=
  if exceeds_chunk_size CHUNK_SIZE (page_content split)
  then token_splitter (page_content split)
  else Ok [page_content split].

(** The outer loop [for split in header_splits]. *)
Fixpoint markdown_loop (filename title : string) (header_splits : list Document)
    (st : list (gmap string (value F)) * nat)
  : result (list (gmap string (value F)) * nat) :=
  match header_splits with
  | [] => Ok st
  | split :: rest =>
      sub_chunks ← sub_chunks_of split;
      markdown_loop filename title rest
        (append_sub_chunks filename title (header_info_of split) sub_chunks st)
  end.

(** The dictionary built for one chunk on the general path. *)
Definition general_chunk (filename title : string) (total_chunks i : nat)
    (chunk_text : string) : gmap string (value F) :=
  let semantic_info := _extract_semantic_info chunk_text in
  {[ "content" := VStr (strip chunk_text);
     "metadata" := VDict (list_to_map
       [ ("filename", VStr filename);
         ("title", VStr title);
         ("chunk_index", VInt (Z.of_nat i));
         ("total_chunks", VInt (Z.of_nat total_chunks));
         ("file_type", VStr (lower (splitext filename).2));
         ("semantic_split", VBool true);
         ("content_type", VStr (content_type semantic_info));
         ("key_topics", VList (VStr <$> key_topics semantic_info));
         ("word_count", VInt (Z.of_nat (word_count chunk_text))) ]) ]}.

Definition _chunk_general_semantic (text filename title : string)
  : result (list (gmap string (value F))) :=
  text_chunks ← token_splitter text;
  mret (foldl (fun chunks ic =>
                 chunks ++ [general_chunk filename title (length text_chunks) ic.1 ic.2])
              [] (enumerate 0 text_chunks)).

(** The body of the [try] block of [_chunk_markdown_semantic]. *)
Definition markdown_body (text filename title : string)
  : result (list (gmap string (value F))) :=
  header_splits ← markdown_splitter text;
  st ← markdown_loop filename title header_splits ([], 0);
  mret (metadata_set "total_chunks" (VInt (Z.of_nat (length st.1))) <$> st.1).

(** Any exception of the body is caught (and printed), and the general
    path runs on the whole text. *)
Definition _chunk_markdown_semantic (text filename title : string)
  : result (list (gmap string (value F))) :=
  try_except (markdown_body text filename title)
             (fun _ => _chunk_general_semantic text filename title).

(** [if not title: title = fallback] *)
Definition title_or (title : option string) (fallback : string) : string :=
  match title with
  | Some t => if bool_decide (t = EmptyString) then fallback else t
  | None => fallback
  end.

Definition chunk_text (text filename : string) (title : option string)
  : result (list (gmap string (value F))) :=
  let title := title_or title (splitext (basename filename)).1 in
  let file_extension := lower (splitext filename).2 in
  if is_markdown_extension file_extension
  then _chunk_markdown_semantic text filename title
  else _chunk_general_semantic text filename title.

Definition extract_text (file_path : string) : result string :=
  let file_extension := lower (splitext file_path).2 in
  if bool_decide (file_extension = ".pdf") then extract_text_from_pdf file_path
  else if is_markdown_extension file_extension then extract_text_from_markdown file_path
  else Raise (ValueError ("Unsupported file type: " +:+ file_extension)).

Definition process_document (file_path : string) (title : option string)
  : result (doc_info F) :=
  text ← extract_text file_path;
  let filename := basename file_path in
  file_size ← getsize file_path;
  let content_type := lower (splitext filename).2 in
  let title := title_or title (splitext filename).1 in
  chunks ← chunk_text text filename (Some title);
  mret {| di_filename := filename;
          di_title := title;
          di_content_type := content_type;
          di_file_size := file_size;
          di_chunks := chunks;
          di_total_chunks := length chunks |}.


(** ** utils/embedding_service.py *)

(** [openai.embeddings.create(model=..., input=...)], as the list of
    the [embedding] fields of [response.data]. *)
Variable openai_embeddings_create : value F -> result (list (list F)).

Definition get_embedding (text : string) : result (list F) :=
  try_except
    (data ← openai_embeddings_create (VStr text);
     match data with
     | embedding :: _ => Ok embedding
     | [] => Raise IndexError
     end)
    (fun e => Raise (Exception ("Error getting embedding: " +:+ exn_str e))).

Definition get_embeddings_batch (texts : list (value F)) : result (list (list F)) :=
  try_except
    (openai_embeddings_create (VList texts))
    (fun e => Raise (Exception ("Error getting batch embeddings: " +:+ exn_str e))).

(** [chunks[i]["embedding"] = embedding]: the dict object that
    [chunks[i]] refers to is updated in the store. *)
Definition set_embedding (chunks : list loc) (h : gmap loc (gmap string (value F)))
    (ie : nat * list F) : result (gmap loc (gmap string (value F))) :=
  match chunks !! ie.1 with
  | Some r => Ok (<[r := <["embedding" := VList (VFloat <$> ie.2)]> (h !!! r)]> h)
  | None => Raise IndexError
  end.

(** [embed_chunks] returns the list it was given; its effect is on the
    objects of the store. *)
Definition embed_chunks (h : gmap loc (gmap string (value F))) (chunks : list loc)
  : result (gmap loc (gmap string (value F)) * list loc) :=
  texts ← comprehension (fun chunk => getitem (h !!! chunk) "content") chunks;
  embeddings ← get_embeddings_batch texts;
  h' ← for_each (set_embedding chunks) (enumerate 0 embeddings) h;
  mret (h', chunks).


(** ** database/supabase_client.py *)

Variable json_dumps : value F -> string.

(** The store: the id it gives a new document, and whether it refuses
    an insert.  An insert that is not refused adds all its rows; one
    that is refused adds none. *)
Variable generated_id : database F -> string.
Variable documents_fault : database F -> string -> option exn.
Variable chunks_fault : database F -> list (chunk_row F) -> option exn.

(** [Config.TOP_K_RESULTS], the literal [0.78] and the stored procedure
    [chat_bot_match_documents]. *)
Variable TOP_K_RESULTS : Z.
Variable match_threshold : F.
Variable chat_bot_match_documents : list F -> F -> Z -> result (list (gmap string (value F))).

Definition insert_document (db : database F) (filename title content_type : string)
    (file_size : Z) : result (database F * string) :=
  match documents_fault db filename with
  | Some e => Raise e
  | None =>
      let id := generated_id db in
      Ok ({| chat_bot_documents :=
               chat_bot_documents db ++
               [{| doc_id := id; doc_filename := filename; doc_title := title;
                   doc_content_type := content_type; doc_file_size := file_size |}];
             chat_bot_document_chunks := chat_bot_document_chunks db |},
          id)
  end.

(** One turn of [for i, chunk in enumerate(chunks): chunk_data.append(...)]. *)
Definition append_chunk_row (document_id : string) (chunk_data : list (chunk_row F))
    (ic : nat * gmap string (value F)) : result (list (chunk_row F)) :=
  content ← getitem ic.2 "content";
  metadata ← getitem ic.2 "metadata";
  embedding ← getitem ic.2 "embedding";
  mret (chunk_data ++
        [{| row_document_id := document_id;
            row_chunk_index := Z.of_nat ic.1;
            row_content := content;
            row_metadata := json_dumps metadata;
            row_embedding := embedding |}]).

Definition insert_chunks (db : database F) (document_id : string)
    (chunks : list (gmap string (value F))) : result (database F) :=
  chunk_data ← for_each (append_chunk_row document_id) (enumerate 0 chunks) [];
  match chunks_fault db chunk_data with
  | Some e => Raise e
  | None =>
      Ok {| chat_bot_documents := chat_bot_documents db;
            chat_bot_document_chunks := chat_bot_document_chunks db ++ chunk_data |}
  end.

Definition search_similar_chunks (query_embedding : list F) (top_k : option Z)
  : result (list (gmap string (value F))) :=
  let top_k := default TOP_K_RESULTS top_k in
  chat_bot_match_documents query_embedding match_threshold top_k.


(** A select on a table is answered with the rows that pass its [eq]
    filter, unless the store fails. *)
Variable select_fault : database F -> option exn.

Definition get_document_info (db : database F) (document_id : string)
  : result (option document_row) :=
  match select_fault db with
  | Some e => Raise e
  | None =>
      Ok (head (filter (fun row => doc_id row = document_id) (chat_bot_documents db)))
  end.

Definition get_chunk_count (db : database F) (document_id : string) : result nat :=
  match select_fault db with
  | Some e => Raise e
  | None =>
      Ok (length (filter (fun row => row_document_id row = document_id)
                         (chat_bot_document_chunks db)))
  end.


(** ** utils/llm_service.py *)

Variable json_loads : string -> result (value F).

(** [metadata = chunk.get("metadata", {})], decoded when it is a string,
    and [{}] when decoding fails. *)
Definition chunk_metadata (chunk : gmap string (value F)) : value F :=
  match default (VDict ∅) (chunk !! "metadata") with
  | VStr s =>
      match json_loads s with
      | Ok v => v
      | Raise _ => VDict ∅
      end
  | v => v
  end.


Variable repr : value F -> string.

(** [requests.post] to the completion endpoint and the decoding of its
    answer: the generation service, from prompt to text. *)
Variable openrouter : string -> result string.

(** One turn of [for i, chunk in enumerate(chunks, 1)]. *)
Definition append_context_part (context_parts : list string)
    (ic : nat * gmap string (value F)) : result (list string) :=
  let metadata := chunk_metadata ic.2 in
  filename ← value_get metadata "filename" (VStr "Unknown");
  title ← value_get metadata "title" filename;
  let content := default (VStr EmptyString) (ic.2 !! "content") in
  mret (context_parts ++
        ["[" +:+ pretty ic.1 +:+ "] Source: " +:+ py_str repr title +:+ " ("
         +:+ py_str repr filename +:+ ")" +:+ newline +:+ py_str repr content +:+ newline]).

Definition _prepare_context (chunks : list (gmap string (value F))) : result string :=
  context_parts ← for_each append_context_part (enumerate 1 chunks) [];
  mret (join newline context_parts).

Definition _create_prompt (question context : string) : string :=
  "You are Chatty, an AI assistant specializing in Australian workers' compensation law and regulations. You provide accurate, helpful information based on the provided context.

Context Information:
" +:+ context +:+ "

Question: " +:+ question +:+ "

Instructions:
1. Answer the question based on the provided context
2. If the context doesn't contain enough information to answer the question, say so clearly
3. Provide specific, actionable information when possible
4. Cite your sources using the numbered references [1], [2], etc.
5. Keep your response concise but comprehensive
6. Focus on Australian workers' compensation law and regulations

Answer:".

Definition _call_openrouter (prompt : string) : traced F string :=
  invoke (CallOpenRouter prompt) (openrouter prompt).

Definition generate_response (question : string)
    (context_chunks : list (gmap string (value F))) : traced F string :=
  traced_bind (invoke (GenerateResponse question context_chunks) (Ok tt)) (fun _ =>
  traced_bind (quiet (_prepare_context context_chunks)) (fun context_text =>
  let prompt := _create_prompt question context_text in
  _call_openrouter prompt)).


(** ** app.py *)

(** [f"{similarity:.2f}"] *)
Variable format_2f : value F -> result string.

Definition append_source (sources : list string) (ic : nat * gmap string (value F))
  : result (list string) :=
  let metadata := chunk_metadata ic.2 in
  filename ← value_get metadata "filename" (VStr "Unknown");
  title ← value_get metadata "title" filename;
  let similarity := default (VInt 0) (ic.2 !! "similarity") in
  shown ← format_2f similarity;
  mret (sources ++
        ["[" +:+ pretty ic.1 +:+ "] " +:+ py_str repr title +:+ " ("
         +:+ py_str repr filename +:+ ") - Similarity: " +:+ shown]).

Definition format_sources (chunks : list (gmap string (value F))) : result string :=
  sources ← for_each append_source (enumerate 1 chunks) [];
  mret (join newline sources).

(** The body of the [try] block of the chat handler: the response and
    the sources it arrives at. *)
Definition answer_question (prompt : string) : traced F (string * string) :=
  traced_bind (invoke (GetEmbedding prompt) (get_embedding prompt))
    (fun question_embedding =>
  traced_bind (invoke (SearchSimilarChunks question_embedding)
                      (search_similar_chunks question_embedding None))
    (fun similar_chunks =>
  match similar_chunks with
  | [] => traced_ret (insufficient_knowledge, no_sources)
  | _ :: _ =>
      traced_bind (generate_response prompt similar_chunks) (fun response =>
      traced_bind (quiet (format_sources similar_chunks)) (fun sources =>
      traced_ret (response, sources)))
  end)).

(** The chat handler for a submitted [prompt]: the calls made and the
    chat history afterwards. *)
Definition handle_prompt (messages : list (gmap string (value F))) (prompt : string)
  : list (call F) * list (gmap string (value F)) :=
  let messages := messages ++ [{[ "role" := VStr "user"; "content" := VStr prompt ]}] in
  let run := answer_question prompt in
  match run.2 with
  | Ok (response, sources) =>
      (run.1, messages ++ [{[ "role" := VStr "assistant";
                              "content" := VStr response;
                              "sources" := VStr sources ]}])
  | Raise e =>
      (run.1, messages ++ [{[ "role" := VStr "assistant";
                              "content" := VStr ("Sorry, I encountered an error: "
                                                 +:+ exn_str e) ]}])
  end.

(** ** config.py *)

(** The four required settings, as read from the environment. *)
Variable OPENAI_API_KEY : option string.
Variable OPENROUTER_API_KEY : option string.
Variable SUPABASE_URL : option string.
Variable SUPABASE_KEY : option string.

(** [not getattr(cls, var)] *)
Definition unset (setting : option string) : bool :=
  match setting with
  | Some s => bool_decide (s = EmptyString)
  | None => true
  end.

Definition validate : result bool :=
  let required_vars :=
    [ ("OPENAI_API_KEY", OPENAI_API_KEY);
      ("OPENROUTER_API_KEY", OPENROUTER_API_KEY);
      ("SUPABASE_URL", SUPABASE_URL);
      ("SUPABASE_KEY", SUPABASE_KEY) ] in
  let missing_vars :=
    foldl (fun missing_vars var =>
             if unset var.2 then missing_vars ++ [var.1] else missing_vars)
          [] required_vars in
  match missing_vars with
  | [] => Ok true
  | _ :: _ =>
      Raise (ValueError ("Missing required environment variables: "
                         +:+ join ", " missing_vars))
  end.

(** ** document_uploader.py *)

(** [os.path.exists] *)
Variable path_exists : string -> bool.

(** The chunk dictionaries that [process_document] has just built are
    distinct objects; they are stored at the references [0], [1], ... *)
Definition allocate (chunks : list (gmap string (value F)))
  : gmap loc (gmap string (value F)) * list loc :=
  (list_to_map (enumerate 0 chunks), seq 0 (length chunks)).

(** The objects that a list of references denotes. *)
Definition deref (h : gmap loc (gmap string (value F))) (chunks : list loc)
  : list (gmap string (value F)) :=
  (fun r => h !!! r) <$> chunks.

(** The inner [try] block of [upload_documents] for one existing file:
    the database afterwards, and the new document id or the exception
    that the [except] clause reports. *)
Definition upload_file (db : database F) (file_path : string)
  : database F * result string :=
  match process_document file_path None with
  | Raise e => (db, Raise e)
  | Ok doc_info =>
      let (h, chunks) := allocate (di_chunks doc_info) in
      match embed_chunks h chunks with
      | Raise e => (db, Raise e)
      | Ok (h', chunks_with_embeddings) =>
          match insert_document db (di_filename doc_info) (di_title doc_info)
                  (di_content_type doc_info) (di_file_size doc_info) with
          | Raise e => (db, Raise e)
          | Ok (db', document_id) =>
              match insert_chunks db' document_id (deref h' chunks_with_embeddings) with
              | Raise e => (db', Raise e)
              | Ok db'' => (db'', Ok document_id)
              end
          end
      end
  end.

(** The constructors [SupabaseClient()], [DocumentProcessor()] and
    [EmbeddingService()], each of which may raise. *)
Variable supabase_client_init : result unit.
Variable document_processor_init : result unit.
Variable embedding_service_init : result unit.

(** What the outer [try] block does before the loop: the
    configuration is validated, then the three services are built. *)
Definition initialize : result unit :=
  _ ← validate;
  _ ← supabase_client_init;
  _ ← document_processor_init;
  embedding_service_init.

(** [upload_documents]: the database afterwards, and the exception of
    the outer [except] clause if the run was abandoned. *)
Definition upload_documents (db : database F) (file_paths : list string)
  : database F * option exn :=
  match initialize with
  | Raise e => (db, Some e)
  | Ok _ =>
      (foldl (fun db file_path =>
                if path_exists file_path then (upload_file db file_path).1 else db)
             db file_paths,
       None)
  end.


(** ** Predicates on texts and values *)

(** A text of whitespace only. *)
Fixpoint blank (s : string) : bool :=
  match s with
  | EmptyString => true
  | String c s' => is_space c && blank s'
  end.

(** A text that does not begin with whitespace. *)
Definition starts_clean (s : string) : Prop :=
  match s with
  | EmptyString => True
  | String c _ => is_space c = false
  end.

(** A Python value that is a dict. *)
Definition is_dict {F} (v : value F) : bool :=
  match v with
  | VDict _ => true
  | _ => false
  end.


(** ** Predicates on chunk sequences *)

(** The chunk at position [i] carries [chunk_index = i]. *)
Definition numbered {F} (chunks : list (gmap string (value F))) : Prop :=
  forall i chunk, chunks !! i = Some chunk ->
    metadata_get chunk "chunk_index" = Some (VInt (Z.of_nat i)).

(** Every chunk carries [total_chunks = n]. *)
Definition totalled {F} (n : nat) (chunks : list (gmap string (value F))) : Prop :=
  forall chunk, chunk ∈ chunks ->
    metadata_get chunk "total_chunks" = Some (VInt (Z.of_nat n)).


(** A section whose text has at most [CHUNK_SIZE] characters. *)
Definition short_section (split : Document) : Prop :=
  (Z.of_nat (String.length (page_content split)) <= CHUNK_SIZE)%Z.

(** A chunk dictionary as the Markdown loop builds it for [filename]
    and [title]. *)
Definition is_markdown_chunk (filename title : string) (chunk : gmap string (value F))
  : Prop :=
  exists header_info chunk_index i n chunk_text,
    i < n /\
    chunk = markdown_chunk filename title header_info chunk_index i n chunk_text.


(** * Properties *)

(** ** Letter case *)

Lemma is_upper_spec (c : ascii) :
  is_upper c = true <-> 65 <= nat_of_ascii c <= 90.
Proof.
  unfold is_upper. by rewrite andb_true_iff, !Nat.leb_le.
Qed.

Lemma lower_char_upper (c : ascii) :
  is_upper c = true -> lower_char c = ascii_of_nat (nat_of_ascii c + 32).
Proof. intros H. unfold lower_char. by rewrite H. Qed.

Lemma lower_char_not_upper (c : ascii) :
  is_upper c = false -> lower_char c = c.
Proof. intros H. unfold lower_char. by rewrite H. Qed.

Lemma lower_char_shifted (a b : ascii) :
  is_upper a = true -> nat_of_ascii b = nat_of_ascii a + 32 ->
  lower_char a = lower_char b.
Proof.
  intros Ha Hb. rewrite (lower_char_upper a Ha), <- Hb, ascii_nat_embedding.
  symmetry. apply lower_char_not_upper.
  apply is_upper_spec in Ha. apply not_true_is_false.
  rewrite is_upper_spec. lia.
Qed.

Lemma lower_char_case_variant (a b : ascii) :
  case_variant a b = true -> lower_char a = lower_char b.
Proof.
  unfold case_variant. rewrite !orb_true_iff, !andb_true_iff, !bool_decide_eq_true.
  intros [[-> | [Ha Hb]] | [Hb Ha]]; [done | | symmetry]; by apply lower_char_shifted.
Qed.

Lemma lower_differ_only_in_case (s t : string) :
  differ_only_in_case s t = true -> lower s = lower t.
Proof.
  revert t. induction s as [|a s IH]; intros [|b t]; simpl; try done.
  rewrite andb_true_iff. intros [Hab Hst].
  by rewrite (lower_char_case_variant a b Hab), (IH t Hst).
Qed.

(** ** [_extract_semantic_info] *)

Lemma any_in_true (words : list string) (text_lower : string) :
  any_in words text_lower = true <->
  exists word, word ∈ words /\ str_in word text_lower = true.
Proof.
  unfold any_in. rewrite existsb_exists.
  split; intros (w & Hw & Hin); exists w; split; try done; by apply list_elem_of_In.
Qed.

Lemma any_in_false (words : list string) (text_lower : string) :
  any_in words text_lower = false <->
  forall word, word ∈ words -> str_in word text_lower = false.
Proof.
  rewrite <- not_true_iff_false, any_in_true. split.
  - intros Hno w Hw. apply not_true_is_false. intros Hin. apply Hno. by exists w.
  - intros Hall (w & Hw & Hin). rewrite (Hall w Hw) in Hin. done.
Qed.

(** The loop that collects the key topics is a filter of the vocabulary. *)
Lemma collect_is_filter (p : string -> bool) (vocabulary acc : list string) :
  foldl (fun key_topics keyword =>
           if p keyword then key_topics ++ [keyword] else key_topics) acc vocabulary
  = acc ++ filter (fun keyword => p keyword = true) vocabulary.
Proof.
  revert acc. induction vocabulary as [|k ks IH]; intros acc; simpl.
  - by rewrite app_nil_r.
  - rewrite IH, filter_cons. destruct (p k) eqn:Hk.
    + rewrite decide_True by done. by rewrite <- app_assoc.
    + rewrite decide_False by done. done.
Qed.

Lemma extract_topics_filter (text_lower : string) :
  extract_topics text_lower
  = filter (fun keyword => str_in keyword text_lower = true) keywords.
Proof. unfold extract_topics. by rewrite collect_is_filter. Qed.

(** C5: [content_type] is found by scanning the lowercased text for the
    four keyword groups; the first group with a match wins, in the order
    claims, legal, procedural, contact; the result is ["general"]
    exactly when no keyword of any group occurs in the lowercased text;
    and texts that differ only in letter case are classified alike. *)
Theorem content_type_first_matching_group (text : string) :
  let text_lower := lower text in
  let found := content_type (_extract_semantic_info text) in
  (any_in claims_words text_lower = true -> found = "claims") /\
  (any_in claims_words text_lower = false ->
   any_in legal_words text_lower = true -> found = "legal") /\
  (any_in claims_words text_lower = false ->
   any_in legal_words text_lower = false ->
   any_in procedural_words text_lower = true -> found = "procedural") /\
  (any_in claims_words text_lower = false ->
   any_in legal_words text_lower = false ->
   any_in procedural_words text_lower = false ->
   any_in contact_words text_lower = true -> found = "contact") /\
  (found = "general" <->
   forall word,
     word ∈ claims_words ++ legal_words ++ procedural_words ++ contact_words ->
     str_in word text_lower = false) /\
  (forall text', differ_only_in_case text text' = true ->
     content_type (_extract_semantic_info text') = found).
Proof.
  intros text_lower found. subst found. cbn [_extract_semantic_info content_type].
  fold text_lower. unfold classify.
  repeat split.
  - by intros ->.
  - by intros -> ->.
  - by intros -> -> ->.
  - by intros -> -> -> ->.
  - destruct (any_in claims_words text_lower) eqn:H1; [done|].
    destruct (any_in legal_words text_lower) eqn:H2; [done|].
    destruct (any_in procedural_words text_lower) eqn:H3; [done|].
    destruct (any_in contact_words text_lower) eqn:H4; [done|].
    intros _ word. rewrite !elem_of_app.
    rewrite any_in_false in H1, H2, H3, H4.
    intros [Hw | [Hw | [Hw | Hw]]]; auto.
  - intros Hall.
    rewrite !(proj2 (any_in_false _ text_lower)); [done | | | |];
      intros w Hw; apply Hall; rewrite !elem_of_app; auto 6.
  - intros text' Hcase. subst text_lower.
    by rewrite (lower_differ_only_in_case text text' Hcase).
Qed.

(** C7: texts that differ only in letter case have the same key topics,
    keyword by keyword; a keyword of the vocabulary is a key topic
    exactly when it occurs in the lowercased text; and the key topics
    come in the order in which the vocabulary lists them. *)
Theorem key_topics_case_insensitive (text text' : string) :
  differ_only_in_case text text' = true ->
  key_topics (_extract_semantic_info text) = key_topics (_extract_semantic_info text') /\
  (forall keyword,
     keyword ∈ key_topics (_extract_semantic_info text) <->
     keyword ∈ key_topics (_extract_semantic_info text')) /\
  (forall keyword,
     keyword ∈ key_topics (_extract_semantic_info text) <->
     keyword ∈ keywords /\ str_in keyword (lower text) = true) /\
  key_topics (_extract_semantic_info text)
  = filter (fun keyword => str_in keyword (lower text) = true) keywords.
Proof.
  intros Hcase. cbn [_extract_semantic_info key_topics].
  rewrite <- (lower_differ_only_in_case text text' Hcase).
  split; [done|]. split; [done|]. split.
  - intros keyword. rewrite extract_topics_filter, list_elem_of_filter. apply and_comm.
  - apply extract_topics_filter.
Qed.


(** Unfold the bind and return of [result] once the head is known. *)
Ltac run_result :=
  unfold mbind, result_bind, mret, result_ret in *; cbn beta iota in *.

(** ** Loops over [enumerate] *)

Lemma enumerate_cons {A} (start : nat) (x : A) (xs : list A) :
  enumerate start (x :: xs) = (start, x) :: enumerate (S start) xs.
Proof.
  unfold enumerate. rewrite imap_cons. f_equal; [by rewrite Nat.add_0_r|].
  apply imap_ext. intros i y _. simpl. f_equal. lia.
Qed.

Lemma enumerate_lookup {A} (start i : nat) (xs : list A) :
  enumerate start xs !! i = (fun x => (start + i, x)) <$> xs !! i.
Proof. unfold enumerate. by rewrite list_lookup_imap. Qed.

Lemma enumerate_length {A} (start : nat) (xs : list A) :
  length (enumerate start xs) = length xs.
Proof. apply length_imap. Qed.

(** A loop that appends one item per turn builds the mapped list. *)
Lemma append_loop_map {A B} (f : A -> B) (xs : list A) (acc : list B) :
  foldl (fun acc x => acc ++ [f x]) acc xs = acc ++ (f <$> xs).
Proof.
  revert acc. induction xs as [|x xs IH]; intros acc; simpl.
  - by rewrite app_nil_r.
  - by rewrite IH, <- app_assoc.
Qed.

Lemma map_enumerate {A B} (f : nat -> A -> B) (start : nat) (xs : list A) :
  (fun ic => f ic.1 ic.2) <$> enumerate start xs = imap (fun i x => f (start + i) x) xs.
Proof.
  unfold enumerate. apply list_eq. intros i.
  rewrite list_lookup_fmap, !list_lookup_imap. by destruct (xs !! i).
Qed.

(** ** Chunk metadata *)

Lemma metadata_get_set_eq (key key' : string) (v : value F)
    (chunk : gmap string (value F)) :
  is_Some (metadata_get chunk key') ->
  metadata_get (metadata_set key v chunk) key = Some v.
Proof.
  intros [w Hw].
  assert (exists md, chunk !! "metadata" = Some (VDict md)) as [md Hmd].
  { unfold metadata_get in Hw.
    destruct (chunk !! "metadata") as [[]|]; try done. by eexists. }
  unfold metadata_get, metadata_set. rewrite lookup_alter_eq, Hmd. simpl.
  apply lookup_insert_eq.
Qed.

Lemma metadata_get_set_ne (key key' : string) (v : value F)
    (chunk : gmap string (value F)) :
  key <> key' ->
  metadata_get (metadata_set key v chunk) key' = metadata_get chunk key'.
Proof.
  intros Hne. unfold metadata_get, metadata_set. rewrite lookup_alter_eq.
  destruct (chunk !! "metadata") as [[]|]; simpl; try done.
  by rewrite lookup_insert_ne.
Qed.

Lemma markdown_chunk_index (filename title header_info : string)
    (chunk_index i n : nat) (chunk_text : string) :
  metadata_get (markdown_chunk filename title header_info chunk_index i n chunk_text)
               "chunk_index" = Some (VInt (Z.of_nat chunk_index)).
Proof. reflexivity. Qed.

Lemma markdown_chunk_content (filename title header_info : string)
    (chunk_index i n : nat) (chunk_text : string) :
  markdown_chunk filename title header_info chunk_index i n chunk_text !! "content"
  = Some (VStr (strip chunk_text)).
Proof. reflexivity. Qed.

Lemma general_chunk_index (filename title : string) (n i : nat) (chunk_text : string) :
  metadata_get (general_chunk filename title n i chunk_text) "chunk_index"
  = Some (VInt (Z.of_nat i)).
Proof. reflexivity. Qed.

Lemma general_chunk_total (filename title : string) (n i : nat) (chunk_text : string) :
  metadata_get (general_chunk filename title n i chunk_text) "total_chunks"
  = Some (VInt (Z.of_nat n)).
Proof. reflexivity. Qed.


(** ** The general path *)

Lemma chunk_general_ok (text filename title : string) (text_chunks : list string) :
  token_splitter text = Ok text_chunks ->
  _chunk_general_semantic text filename title
  = Ok (imap (fun i chunk_text =>
                general_chunk filename title (length text_chunks) i chunk_text)
             text_chunks).
Proof.
  intros Hsplit. unfold _chunk_general_semantic. rewrite Hsplit. run_result. f_equal.
  rewrite (append_loop_map
             (fun ic => general_chunk filename title (length text_chunks) ic.1 ic.2)).
  simpl. apply (map_enumerate (fun i x => general_chunk filename title _ i x)).
Qed.

Lemma chunk_general_raise (text filename title : string) (e : exn) :
  _chunk_general_semantic text filename title = Raise e <-> token_splitter text = Raise e.
Proof.
  unfold _chunk_general_semantic. destruct (token_splitter text); run_result.
  - split; intros H; discriminate H.
  - split; intros [= ->]; reflexivity.
Qed.

Lemma chunk_general_numbered (text filename title : string)
    (chunks : list (gmap string (value F))) :
  _chunk_general_semantic text filename title = Ok chunks ->
  numbered chunks /\ totalled (length chunks) chunks.
Proof.
  destruct (token_splitter text) as [text_chunks|e] eqn:Hsplit.
  - rewrite (chunk_general_ok _ _ _ _ Hsplit). intros [= <-]. split.
    + intros i chunk. rewrite list_lookup_imap. intros Hi.
      destruct (text_chunks !! i); simplify_eq/=. apply general_chunk_index.
    + intros chunk. rewrite length_imap, list_elem_of_lookup. intros [i Hi].
      rewrite list_lookup_imap in Hi.
      destruct (text_chunks !! i); simplify_eq/=. apply general_chunk_total.
  - rewrite (proj2 (chunk_general_raise text filename title e) Hsplit). done.
Qed.

(** ** The Markdown path *)

Lemma append_loop_from (filename title header_info : string) (n : nat)
    (xs : list string) (start : nat) (st : list (gmap string (value F)) * nat) :
  foldl (fun st ic =>
           (st.1 ++ [markdown_chunk filename title header_info st.2 ic.1 n ic.2], S st.2))
        st (enumerate start xs)
  = (st.1 ++ imap (fun j x => markdown_chunk filename title header_info
                                (st.2 + j) (start + j) n x) xs,
     st.2 + length xs).
Proof.
  revert start st. induction xs as [|x xs IH]; intros start [chunks chunk_index].
  - simpl. by rewrite app_nil_r, Nat.add_0_r.
  - rewrite enumerate_cons. cbn [foldl]. rewrite IH. cbn [fst snd length].
    rewrite imap_cons, <- app_assoc, !Nat.add_0_r. f_equal; [|lia].
    f_equal. simpl. f_equal. apply imap_ext. intros j y _. simpl.
    f_equal; lia.
Qed.

Lemma append_sub_chunks_closed (filename title header_info : string)
    (sub_chunks : list string) (st : list (gmap string (value F)) * nat) :
  append_sub_chunks filename title header_info sub_chunks st
  = (st.1 ++ imap (fun j x => markdown_chunk filename title header_info
                                (st.2 + j) j (length sub_chunks) x) sub_chunks,
     st.2 + length sub_chunks).
Proof. unfold append_sub_chunks. by rewrite append_loop_from. Qed.

Lemma append_sub_chunks_numbered (filename title header_info : string)
    (sub_chunks : list string) (st : list (gmap string (value F)) * nat) :
  st.2 = length st.1 -> numbered st.1 ->
  (append_sub_chunks filename title header_info sub_chunks st).2
  = length (append_sub_chunks filename title header_info sub_chunks st).1 /\
  numbered (append_sub_chunks filename title header_info sub_chunks st).1.
Proof.
  intros Hlen Hnum. rewrite append_sub_chunks_closed. cbn [fst snd]. split.
  - rewrite length_app, length_imap. lia.
  - intros i chunk Hi. destruct (decide (i < length st.1)) as [Hlt|Hge].
    + rewrite lookup_app_l in Hi by done. by apply Hnum.
    + rewrite lookup_app_r in Hi by lia. rewrite list_lookup_imap in Hi.
      destruct (sub_chunks !! (i - length st.1)); simplify_eq/=.
      rewrite markdown_chunk_index. do 3 f_equal. lia.
Qed.

Lemma markdown_loop_numbered (filename title : string) (header_splits : list Document)
    (st st' : list (gmap string (value F)) * nat) :
  markdown_loop filename title header_splits st = Ok st' ->
  st.2 = length st.1 -> numbered st.1 ->
  st'.2 = length st'.1 /\ numbered st'.1.
Proof.
  revert st. induction header_splits as [|split rest IH]; intros st; simpl.
  - by intros [= <-].
  - destruct (sub_chunks_of split) as [sub_chunks|e]; run_result; [|done].
    intros Hloop Hlen Hnum.
    destruct (append_sub_chunks_numbered filename title (header_info_of split)
                sub_chunks st Hlen Hnum) as [Hlen' Hnum'].
    by apply (IH _ Hloop).
Qed.

Lemma markdown_body_numbered (text filename title : string)
    (chunks : list (gmap string (value F))) :
  markdown_body text filename title = Ok chunks ->
  numbered chunks /\ totalled (length chunks) chunks.
Proof.
  unfold markdown_body.
  destruct (markdown_splitter text) as [header_splits|e]; run_result; [|done].
  destruct (markdown_loop filename title header_splits ([], 0)) as [st|e] eqn:Hloop;
    run_result; [|done].
  intros [= <-].
  destruct (markdown_loop_numbered _ _ _ _ _ Hloop) as [_ Hnum]; [done | by intros i c | ].
  rewrite length_fmap. split.
  - intros i chunk. rewrite list_lookup_fmap. intros Hi.
    destruct (st.1 !! i) as [c|] eqn:Hc; simplify_eq/=.
    rewrite metadata_get_set_ne by done. by apply Hnum.
  - intros chunk. rewrite list_elem_of_fmap. intros (c & -> & Hc).
    apply list_elem_of_lookup in Hc as [i Hi].
    apply (metadata_get_set_eq _ "chunk_index"). rewrite (Hnum i c Hi). by eexists.
Qed.

Lemma chunk_markdown_numbered (text filename title : string)
    (chunks : list (gmap string (value F))) :
  _chunk_markdown_semantic text filename title = Ok chunks ->
  numbered chunks /\ totalled (length chunks) chunks.
Proof.
  unfold _chunk_markdown_semantic, try_except.
  destruct (markdown_body text filename title) as [body_chunks|e] eqn:Hbody.
  - intros [= <-]. by apply (markdown_body_numbered text filename title).
  - apply chunk_general_numbered.
Qed.

Lemma numbered_indices (chunks : list (gmap string (value F))) :
  numbered chunks ->
  (fun chunk => metadata_get chunk "chunk_index") <$> chunks
  = (fun i => Some (VInt (Z.of_nat i))) <$> seq 0 (length chunks).
Proof.
  intros Hnum. apply list_eq. intros i. rewrite !list_lookup_fmap.
  destruct (chunks !! i) as [c|] eqn:Hc; simpl.
  - rewrite (Hnum i c Hc). rewrite lookup_seq_lt; [done|].
    by apply lookup_lt_Some in Hc.
  - rewrite lookup_seq_ge; [done|]. by apply lookup_ge_None in Hc.
Qed.

(** C1: on either path, the chunks that [chunk_text] returns carry the
    [chunk_index] values 0, 1, ..., N-1 in this order, and each carries
    [total_chunks] = N, where N is the number of chunks returned. *)
Theorem chunk_text_indices_dense (text filename : string) (title : option string)
    (chunks : list (gmap string (value F))) :
  chunk_text text filename title = Ok chunks ->
  (fun chunk => metadata_get chunk "chunk_index") <$> chunks
  = (fun i => Some (VInt (Z.of_nat i))) <$> seq 0 (length chunks) /\
  Forall (fun chunk =>
            metadata_get chunk "total_chunks" = Some (VInt (Z.of_nat (length chunks))))
         chunks.
Proof.
  unfold chunk_text. intros Hchunks.
  assert (numbered chunks /\ totalled (length chunks) chunks) as [Hnum Htot].
  { destruct (is_markdown_extension _).
    - by apply chunk_markdown_numbered in Hchunks.
    - by apply chunk_general_numbered in Hchunks. }
  split; [by apply numbered_indices|].
  apply Forall_forall. intros chunk Hin. by apply Htot.
Qed.


(** C6: when the header split raises, [chunk_text] returns what the
    general path returns for the whole text, and an exception that
    reaches the caller is the one the token splitter raised on the
    whole text, not the one of the header split. *)
Theorem header_split_failure_falls_back (text filename : string) (title : option string)
    (e : exn) :
  markdown_splitter text = Raise e ->
  chunk_text text filename title
  = _chunk_general_semantic text filename
      (title_or title (splitext (basename filename)).1) /\
  (forall e', chunk_text text filename title = Raise e' -> token_splitter text = Raise e') /\
  (forall text_chunks, token_splitter text = Ok text_chunks ->
     exists chunks, chunk_text text filename title = Ok chunks).
Proof.
  intros Hfail.
  assert (chunk_text text filename title
          = _chunk_general_semantic text filename
              (title_or title (splitext (basename filename)).1)) as Heq.
  { unfold chunk_text. destruct (is_markdown_extension _); [|done].
    unfold _chunk_markdown_semantic, markdown_body. rewrite Hfail. done. }
  rewrite Heq. split; [done|]. split.
  - intros e'. apply chunk_general_raise.
  - intros text_chunks Hsplit. rewrite (chunk_general_ok _ _ _ _ Hsplit). by eexists.
Qed.

(** C8: on the empty text, for which both splitters produce no pieces,
    [chunk_text] returns the empty chunk sequence and raises nothing,
    whatever the filename and title. *)
Theorem empty_text_no_chunks (filename : string) (title : option string) :
  token_splitter EmptyString = Ok [] ->
  (forall header_splits, markdown_splitter EmptyString = Ok header_splits ->
     header_splits = []) ->
  chunk_text EmptyString filename title = Ok [].
Proof.
  intros Htok Hmd.
  assert (forall t, _chunk_general_semantic EmptyString filename t = Ok []) as Hgen.
  { intros t. by rewrite (chunk_general_ok _ _ _ _ Htok). }
  unfold chunk_text. destruct (is_markdown_extension _); [|apply Hgen].
  unfold _chunk_markdown_semantic, markdown_body.
  destruct (markdown_splitter EmptyString) as [header_splits|e] eqn:Hsplit.
  - rewrite (Hmd header_splits eq_refl). done.
  - apply Hgen.
Qed.

(** ** Sub-chunks of the header sections *)

Lemma metadata_set_content (key : string) (v : value F) (chunk : gmap string (value F)) :
  metadata_set key v chunk !! "content" = chunk !! "content".
Proof. unfold metadata_set. by rewrite lookup_alter_ne. Qed.

Lemma append_sub_chunks_contents (filename title header_info : string)
    (sub_chunks : list string) (st : list (gmap string (value F)) * nat) :
  (fun chunk => chunk !! "content")
    <$> (append_sub_chunks filename title header_info sub_chunks st).1
  = ((fun chunk => chunk !! "content") <$> st.1)
    ++ ((fun x => Some (VStr (strip x))) <$> sub_chunks).
Proof.
  rewrite append_sub_chunks_closed. cbn [fst]. rewrite fmap_app. f_equal.
  apply list_eq. intros i. rewrite !list_lookup_fmap, list_lookup_imap.
  by destruct (sub_chunks !! i).
Qed.

Lemma markdown_loop_contents (filename title : string) (header_splits : list Document)
    (sub_chunk_lists : list (list string)) (st : list (gmap string (value F)) * nat) :
  comprehension sub_chunks_of header_splits = Ok sub_chunk_lists ->
  exists st',
    markdown_loop filename title header_splits st = Ok st' /\
    (fun chunk => chunk !! "content") <$> st'.1
    = ((fun chunk => chunk !! "content") <$> st.1)
      ++ ((fun x => Some (VStr (strip x))) <$> concat sub_chunk_lists).
Proof.
  revert sub_chunk_lists st.
  induction header_splits as [|split rest IH]; intros sub_chunk_lists st; simpl.
  - intros [= <-]. exists st. by rewrite app_nil_r.
  - destruct (sub_chunks_of split) as [sub_chunks|e]; run_result; [|done].
    destruct (comprehension sub_chunks_of rest) as [rest_lists|e] eqn:Hrest;
      run_result; [|done].
    intros [= <-].
    destruct (IH rest_lists
                (append_sub_chunks filename title (header_info_of split) sub_chunks st)
                eq_refl) as (st' & Hloop & Hcontents).
    exists st'. split; [done|].
    rewrite Hcontents, append_sub_chunks_contents. simpl.
    by rewrite fmap_app, app_assoc.
Qed.

(** ** [embed_chunks] *)

Lemma comprehension_ok {A B} (f : A -> result B) (xs : list A) (ys : list B) :
  comprehension f xs = Ok ys ->
  length ys = length xs /\
  forall j x, xs !! j = Some x -> exists y, ys !! j = Some y /\ f x = Ok y.
Proof.
  revert ys. induction xs as [|x xs IH]; intros ys; simpl.
  - intros [= <-]. split; [done|]. intros j x Hx. by rewrite lookup_nil in Hx.
  - destruct (f x) as [y|e] eqn:Hfx; run_result; [|done].
    destruct (comprehension f xs) as [ys'|e]; run_result; [|done].
    intros [= <-]. destruct (IH ys' eq_refl) as [Hlen Hall]. split.
    + simpl. by rewrite Hlen.
    + intros [|j] x' Hx'; simpl in *.
      * injection Hx' as <-. by exists y.
      * by apply Hall.
Qed.

Lemma elem_of_window {A} (l : list A) (start n : nat) (x : A) :
  x ∈ take n (drop start l) <->
  exists j, start <= j < start + n /\ l !! j = Some x.
Proof.
  rewrite list_elem_of_lookup. split.
  - intros [i Hi]. apply lookup_take_Some in Hi as [Hi Hlt].
    rewrite lookup_drop in Hi. exists (start + i). split; [lia | done].
  - intros (j & Hj & Hx). exists (j - start).
    apply lookup_take_Some. split; [|lia].
    rewrite lookup_drop. by replace (start + (j - start)) with j by lia.
Qed.

Lemma set_embedding_at (chunks : list loc) (h : gmap loc (gmap string (value F)))
    (i : nat) (e : list F) (r : loc) :
  chunks !! i = Some r ->
  set_embedding chunks h (i, e)
  = Ok (<[r := <["embedding" := VList (VFloat <$> e)]> (h !!! r)]> h).
Proof. intros Hr. unfold set_embedding. cbn [fst snd]. by rewrite Hr. Qed.

Lemma set_embedding_out_of_range (chunks : list loc)
    (h : gmap loc (gmap string (value F))) (i : nat) (e : list F) :
  chunks !! i = None -> set_embedding chunks h (i, e) = Raise IndexError.
Proof. intros Hr. unfold set_embedding. cbn [fst snd]. by rewrite Hr. Qed.

(** The loop [for i, embedding in enumerate(embeddings)] ends without
    [IndexError] when there are no more vectors than chunks. *)
Lemma set_embedding_loop_ok (chunks : list loc) (embeddings : list (list F))
    (start : nat) (h : gmap loc (gmap string (value F))) :
  start + length embeddings <= length chunks ->
  exists h', for_each (set_embedding chunks) (enumerate start embeddings) h = Ok h'.
Proof.
  revert start h. induction embeddings as [|e es IH]; intros start h Hlen.
  - by exists h.
  - rewrite enumerate_cons. cbn [for_each]. simpl in Hlen.
    destruct (lookup_lt_is_Some_2 chunks start) as [r Hr]; [lia|].
    rewrite (set_embedding_at _ _ _ _ _ Hr). run_result. apply IH. lia.
Qed.

(** What the loop leaves in the store: objects outside the visited
    window are untouched, and a visited object has its [embedding] set
    to the vector at one of the positions that refer to it. *)
Lemma set_embedding_loop_spec (chunks : list loc) (embeddings : list (list F))
    (start : nat) (h h' : gmap loc (gmap string (value F))) :
  for_each (set_embedding chunks) (enumerate start embeddings) h = Ok h' ->
  (forall r, r ∉ take (length embeddings) (drop start chunks) -> h' !! r = h !! r) /\
  (forall r, r ∈ take (length embeddings) (drop start chunks) ->
     exists j e,
       start <= j < start + length embeddings /\
       chunks !! j = Some r /\
       embeddings !! (j - start) = Some e /\
       h' !!! r = <["embedding" := VList (VFloat <$> e)]> (h !!! r)).
Proof.
  revert start h. induction embeddings as [|e0 es IH]; intros start h.
  - simpl. intros [= <-]. split; [done|]. intros r Hr. by apply elem_of_nil in Hr.
  - rewrite enumerate_cons. cbn [for_each].
    destruct (chunks !! start) as [r0|] eqn:Hr0;
      [ rewrite (set_embedding_at _ _ _ _ _ Hr0)
      | rewrite (set_embedding_out_of_range _ _ _ _ Hr0) ];
      run_result; [|done].
    intros Hloop. destruct (IH _ _ Hloop) as [Hout Hin]. clear IH. split.
    + intros r Hr. rewrite Hout.
      * apply lookup_insert_ne. intros ->. apply Hr, elem_of_window.
        exists start. simpl. split; [lia | done].
      * intros Hr'. apply Hr. apply elem_of_window in Hr' as (j & Hj & Hx).
        apply elem_of_window. exists j. simpl. split; [lia | done].
    + intros r Hr.
      destruct (decide (r ∈ take (length es) (drop (S start) chunks))) as [Hlater|Hnot].
      * destruct (Hin r Hlater) as (j & e & Hj & Hx & He & Hh').
        exists j, e. split; [simpl; lia|]. split; [done|]. split.
        { replace (j - start) with (S (j - S start)) by lia. done. }
        rewrite Hh'. destruct (decide (r0 = r)) as [->|Hne].
        { by rewrite lookup_total_insert_eq, insert_insert_eq. }
        { by rewrite lookup_total_insert_ne. }
      * assert (r = r0) as ->.
        { apply elem_of_window in Hr as (j & Hj & Hx). simpl in Hj.
          destruct (decide (j = start)) as [->|Hne]; [congruence|].
          exfalso. apply Hnot, elem_of_window. exists j. split; [lia | done]. }
        exists start, e0. split; [simpl; lia|]. split; [done|]. split.
        { by rewrite Nat.sub_diag. }
        rewrite lookup_total_alt, (Hout r0 Hnot), lookup_insert_eq. done.
Qed.

(** C9: when every chunk has a [content] and the embedding service
    answers the batch with one vector per text, [embed_chunks] returns
    the very list it was given (same length, same order); the object of
    every chunk is what it was with the one field [embedding] set, to
    the vector returned at a position that holds this chunk and its
    content (the chunk's own position when the objects in the list are
    distinct); every other field of every chunk, [content] and
    [metadata] among them, is unchanged; and no other object of the
    store changes. *)
Theorem embed_chunks_adds_only_embedding (h : gmap loc (gmap string (value F)))
    (chunks : list loc) (texts : list (value F)) (embeddings : list (list F)) :
  comprehension (fun chunk => getitem (h !!! chunk) "content") chunks = Ok texts ->
  openai_embeddings_create (VList texts) = Ok embeddings ->
  length embeddings = length texts ->
  exists h',
    embed_chunks h chunks = Ok (h', chunks) /\
    (forall i r, chunks !! i = Some r ->
       exists j e,
         chunks !! j = Some r /\
         texts !! j = (h !!! r) !! "content" /\
         embeddings !! j = Some e /\
         h' !!! r = <["embedding" := VList (VFloat <$> e)]> (h !!! r) /\
         (NoDup chunks -> j = i)) /\
    (forall i r key, chunks !! i = Some r -> key <> "embedding" ->
       (h' !!! r) !! key = (h !!! r) !! key) /\
    (forall r, r ∉ chunks -> h' !! r = h !! r).
Proof.
  intros Htexts Hcreate Hlen.
  destruct (comprehension_ok _ _ _ Htexts) as [Hlen_texts Hcontent].
  destruct (set_embedding_loop_ok chunks embeddings 0 h) as [h' Hloop]; [lia|].
  destruct (set_embedding_loop_spec _ _ _ _ _ Hloop) as [Hout Hin].
  rewrite drop_0, Hlen, Hlen_texts, firstn_all in Hout, Hin.
  assert (forall i r, chunks !! i = Some r ->
            exists j e,
              chunks !! j = Some r /\
              texts !! j = (h !!! r) !! "content" /\
              embeddings !! j = Some e /\
              h' !!! r = <["embedding" := VList (VFloat <$> e)]> (h !!! r) /\
              (NoDup chunks -> j = i)) as Hchunk.
  { intros i r Hi.
    destruct (Hin r) as (j & e & Hj & Hx & He & Hh'); [by eapply list_elem_of_lookup_2|].
    rewrite Nat.sub_0_r in He. exists j, e. split; [done|]. split.
    - destruct (Hcontent j r Hx) as (y & Hy & Hget). rewrite Hy.
      unfold getitem in Hget. destruct ((h !!! r) !! "content"); by simplify_eq.
    - split; [done|]. split; [done|]. intros Hnodup.
      by apply (NoDup_lookup chunks j i r). }
  exists h'. split; [|split; [exact Hchunk|split]].
  - unfold embed_chunks. rewrite Htexts. run_result.
    unfold get_embeddings_batch, try_except. rewrite Hcreate. run_result.
    by rewrite Hloop.
  - intros i r key Hi Hkey.
    destruct (Hchunk i r Hi) as (j & e & _ & _ & _ & -> & _).
    by rewrite lookup_insert_ne.
  - exact Hout.
Qed.


(** ** [insert_chunks] *)

Lemma append_chunk_row_ok (document_id : string) (chunk_data rows : list (chunk_row F))
    (i : nat) (chunk : gmap string (value F)) :
  append_chunk_row document_id chunk_data (i, chunk) = Ok rows ->
  exists row,
    rows = chunk_data ++ [row] /\
    row_document_id row = document_id /\
    row_chunk_index row = Z.of_nat i /\
    chunk !! "content" = Some (row_content row) /\
    (exists metadata, chunk !! "metadata" = Some metadata /\
                      row_metadata row = json_dumps metadata) /\
    chunk !! "embedding" = Some (row_embedding row).
Proof.
  unfold append_chunk_row, getitem. cbn [fst snd].
  destruct (chunk !! "content") as [content|]; run_result; [|done].
  destruct (chunk !! "metadata") as [metadata|]; run_result; [|done].
  destruct (chunk !! "embedding") as [embedding|]; run_result; [|done].
  intros [= <-]. eexists. split; [done|]. simpl. eauto 10.
Qed.

Lemma append_chunk_row_total (document_id : string) (chunk_data : list (chunk_row F))
    (i : nat) (chunk : gmap string (value F)) :
  is_Some (chunk !! "content") -> is_Some (chunk !! "metadata") ->
  is_Some (chunk !! "embedding") ->
  exists rows, append_chunk_row document_id chunk_data (i, chunk) = Ok rows.
Proof.
  intros [c Hc] [m Hm] [e He]. unfold append_chunk_row, getitem. cbn [fst snd].
  rewrite Hc, Hm, He. run_result. by eexists.
Qed.

(** The rows that the loop of [insert_chunks] builds, one per chunk,
    numbered by position. *)
Lemma chunk_rows_loop (document_id : string) (chunks : list (gmap string (value F)))
    (start : nat) (chunk_data rows : list (chunk_row F)) :
  for_each (append_chunk_row document_id) (enumerate start chunks) chunk_data = Ok rows ->
  exists new_rows,
    rows = chunk_data ++ new_rows /\
    length new_rows = length chunks /\
    forall i row, new_rows !! i = Some row ->
      row_document_id row = document_id /\
      row_chunk_index row = Z.of_nat (start + i) /\
      exists chunk,
        chunks !! i = Some chunk /\
        chunk !! "content" = Some (row_content row) /\
        (exists metadata, chunk !! "metadata" = Some metadata /\
                          row_metadata row = json_dumps metadata) /\
        chunk !! "embedding" = Some (row_embedding row).
Proof.
  revert start chunk_data.
  induction chunks as [|chunk chunks IH]; intros start chunk_data.
  - simpl. intros [= <-]. exists []. rewrite app_nil_r. split; [done|]. split; [done|].
    intros i row Hi. by rewrite lookup_nil in Hi.
  - rewrite enumerate_cons. cbn [for_each].
    destruct (append_chunk_row document_id chunk_data (start, chunk)) as [rows1|e] eqn:Hrow;
      run_result; [|done].
    intros Hloop.
    destruct (append_chunk_row_ok _ _ _ _ _ Hrow)
      as (row & -> & Hid & Hidx & Hcontent & Hmeta & Hemb).
    destruct (IH _ _ Hloop) as (new_rows & -> & Hlen & Hrows).
    exists (row :: new_rows). split; [by rewrite <- app_assoc|].
    split; [simpl; by rewrite Hlen|].
    intros [|i] row' Hi; simpl in Hi.
    + injection Hi as <-. rewrite Nat.add_0_r. split; [done|]. split; [done|].
      exists chunk. eauto.
    + destruct (Hrows i row' Hi) as (Hid' & Hidx' & Hchunk).
      split; [done|]. split; [rewrite Hidx'; f_equal; lia|]. exact Hchunk.
Qed.

Lemma chunk_rows_loop_total (document_id : string)
    (chunks : list (gmap string (value F))) (start : nat)
    (chunk_data : list (chunk_row F)) :
  Forall (fun chunk => is_Some (chunk !! "content") /\ is_Some (chunk !! "metadata") /\
                       is_Some (chunk !! "embedding")) chunks ->
  exists rows,
    for_each (append_chunk_row document_id) (enumerate start chunks) chunk_data = Ok rows.
Proof.
  intros Hall. revert start chunk_data.
  induction Hall as [|chunk chunks (Hc & Hm & He) _ IH]; intros start chunk_data.
  - by eexists.
  - rewrite enumerate_cons. cbn [for_each].
    destruct (append_chunk_row_total document_id chunk_data start chunk Hc Hm He)
      as [rows1 ->].
    run_result. apply IH.
Qed.

(** What a successful [insert_chunks] adds to the chunk table. *)
Lemma insert_chunks_rows (db db' : database F) (document_id : string)
    (chunks : list (gmap string (value F))) :
  insert_chunks db document_id chunks = Ok db' ->
  chat_bot_documents db' = chat_bot_documents db /\
  exists new_rows,
    chat_bot_document_chunks db' = chat_bot_document_chunks db ++ new_rows /\
    length new_rows = length chunks /\
    forall i row, new_rows !! i = Some row ->
      row_document_id row = document_id /\
      row_chunk_index row = Z.of_nat i /\
      exists chunk,
        chunks !! i = Some chunk /\
        chunk !! "content" = Some (row_content row) /\
        (exists metadata, chunk !! "metadata" = Some metadata /\
                          row_metadata row = json_dumps metadata) /\
        chunk !! "embedding" = Some (row_embedding row).
Proof.
  unfold insert_chunks.
  destruct (for_each _ _ _) as [chunk_data|e] eqn:Hloop; run_result; [|done].
  destruct (chunks_fault db chunk_data); [done|]. intros [= <-]. simpl.
  split; [done|].
  destruct (chunk_rows_loop _ _ _ _ _ Hloop) as (new_rows & -> & Hlen & Hrows).
  exists new_rows. by rewrite app_nil_l.
Qed.

(** [insert_chunks] succeeds when no field is missing and the store
    does not refuse. *)
Lemma insert_chunks_total (db : database F) (document_id : string)
    (chunks : list (gmap string (value F))) :
  Forall (fun chunk => is_Some (chunk !! "content") /\ is_Some (chunk !! "metadata") /\
                       is_Some (chunk !! "embedding")) chunks ->
  (forall rows, chunks_fault db rows = None) ->
  exists db', insert_chunks db document_id chunks = Ok db'.
Proof.
  intros Hall Hfault. unfold insert_chunks.
  destruct (chunk_rows_loop_total document_id chunks 0 [] Hall) as [rows ->].
  run_result. rewrite Hfault. by eexists.
Qed.

(** C10: the rows that [insert_chunks] writes are one per chunk, in
    list order, and the row of the chunk at position [i] has
    [chunk_index = i], whatever the chunk's own metadata says (which
    goes, serialized, into the [metadata] column): the stored
    [chunk_index] values are 0, 1, ..., N-1.  The insert succeeds when
    every chunk has its three fields and the store does not refuse. *)
Theorem insert_chunks_index_is_position (db : database F) (document_id : string)
    (chunks : list (gmap string (value F))) :
  (forall db', insert_chunks db document_id chunks = Ok db' ->
     exists new_rows,
       chat_bot_document_chunks db' = chat_bot_document_chunks db ++ new_rows /\
       row_chunk_index <$> new_rows = Z.of_nat <$> seq 0 (length chunks) /\
       (forall i row, new_rows !! i = Some row ->
          row_document_id row = document_id /\
          row_chunk_index row = Z.of_nat i /\
          exists chunk metadata,
            chunks !! i = Some chunk /\
            chunk !! "metadata" = Some metadata /\
            row_metadata row = json_dumps metadata)) /\
  (Forall (fun chunk => is_Some (chunk !! "content") /\ is_Some (chunk !! "metadata") /\
                        is_Some (chunk !! "embedding")) chunks ->
   (forall rows, chunks_fault db rows = None) ->
   exists db', insert_chunks db document_id chunks = Ok db').
Proof.
  split; [|apply insert_chunks_total].
  intros db' Hinsert.
  destruct (insert_chunks_rows _ _ _ _ Hinsert) as (_ & new_rows & Hrows & Hlen & Hrow).
  exists new_rows. split; [done|]. split.
  - apply list_eq. intros i. rewrite !list_lookup_fmap.
    destruct (new_rows !! i) as [row|] eqn:Hi; simpl.
    + destruct (Hrow i row Hi) as (_ & -> & _).
      rewrite lookup_seq_lt; [done|]. rewrite <- Hlen. by eapply lookup_lt_Some.
    + rewrite lookup_seq_ge; [done|]. rewrite <- Hlen. by apply lookup_ge_None.
  - intros i row Hi.
    destruct (Hrow i row Hi) as (Hid & Hidx & chunk & Hchunk & _ & (md & Hmd & Hjson) & _).
    split; [done|]. split; [done|]. by exists chunk, md.
Qed.


(** ** [upload_documents] *)

Lemma insert_document_chunks (db db' : database F) (filename title content_type : string)
    (file_size : Z) (document_id : string) :
  insert_document db filename title content_type file_size = Ok (db', document_id) ->
  chat_bot_document_chunks db' = chat_bot_document_chunks db.
Proof.
  unfold insert_document. destruct (documents_fault db filename); [done|].
  by intros [= <- <-].
Qed.

(** ** The chat handler *)

Lemma traced_bind_invoke_ok {A B} (c : call F) (a : A) (f : A -> traced F B) :
  traced_bind (invoke c (Ok a)) f = (c :: (f a).1, (f a).2).
Proof. reflexivity. Qed.

Lemma traced_bind_quiet_ok {A B} (a : A) (f : A -> traced F B) :
  traced_bind (quiet (Ok a)) f = f a.
Proof. unfold traced_bind, quiet. cbn [fst snd]. by destruct (f a). Qed.

Lemma traced_bind_quiet_raise {A B} (e : exn) (f : A -> traced F B) :
  traced_bind (quiet (Raise e)) f = ([], Raise e).
Proof. reflexivity. Qed.

Lemma traced_bind_trace {A B} (m : traced F A) (f : A -> traced F B) :
  exists rest, (traced_bind m f).1 = m.1 ++ rest.
Proof.
  unfold traced_bind. destruct m.2; cbn [fst]; [by eexists|].
  exists []. by rewrite app_nil_r.
Qed.


Lemma generate_response_starts (question : string)
    (context_chunks : list (gmap string (value F))) :
  exists rest,
    (generate_response question context_chunks).1
    = GenerateResponse question context_chunks :: rest.
Proof. unfold generate_response. rewrite traced_bind_invoke_ok. by eexists. Qed.

(** The handler after a successful embedding and search. *)
Lemma answer_question_unfold (prompt : string) (question_embedding : list F)
    (similar_chunks : list (gmap string (value F))) :
  get_embedding prompt = Ok question_embedding ->
  search_similar_chunks question_embedding None = Ok similar_chunks ->
  answer_question prompt
  = let continue :=
      match similar_chunks with
      | [] => traced_ret (insufficient_knowledge, no_sources)
      | _ :: _ =>
          traced_bind (generate_response prompt similar_chunks) (fun response =>
          traced_bind (quiet (format_sources similar_chunks)) (fun sources =>
          traced_ret (response, sources)))
      end in
    (GetEmbedding prompt :: SearchSimilarChunks question_embedding :: continue.1,
     continue.2).
Proof.
  intros Hembed Hsearch. unfold answer_question.
  rewrite Hembed, traced_bind_invoke_ok. cbn beta.
  rewrite Hsearch, traced_bind_invoke_ok. cbn beta. by destruct similar_chunks.
Qed.


(** * Further properties *)

(** ** Texts *)

Lemma string_app_cons (x : ascii) (a b : string) :
  String x a +:+ b = String x (a +:+ b).
Proof. reflexivity. Qed.

Lemma string_app_nil_l (a : string) : EmptyString +:+ a = a.
Proof. reflexivity. Qed.

Lemma string_app_assoc (a b c : string) : (a +:+ b) +:+ c = a +:+ (b +:+ c).
Proof.
  induction a as [|x a IH]; [done|]. by rewrite !string_app_cons, IH.
Qed.

Lemma string_app_nil_r (a : string) : a +:+ EmptyString = a.
Proof. induction a as [|x a IH]; [done|]. by rewrite string_app_cons, IH. Qed.

Lemma prefix_spec (a s : string) :
  String.prefix a s = true <-> exists post, s = a +:+ post.
Proof.
  revert s. induction a as [|x a IH]; intros s.
  - destruct s; simpl; split; try done; intros _; by eexists.
  - destruct s as [|y s]; simpl.
    + split; [done|]. by intros [post Hpost].
    + destruct (ascii_dec x y) as [->|Hne].
      * rewrite IH. split; intros [post Hpost]; exists post.
        { by rewrite string_app_cons, Hpost. }
        { rewrite string_app_cons in Hpost. by injection Hpost. }
      * split; [done|]. intros [post Hpost]. rewrite string_app_cons in Hpost.
        by injection Hpost as -> _.
Qed.

Lemma str_in_spec (sub s : string) :
  str_in sub s = true <-> exists pre post, s = pre +:+ sub +:+ post.
Proof.
  induction s as [|c s IH].
  - cbn [str_in]. rewrite orb_false_r, prefix_spec. split.
    + intros [post Hpost]. by exists EmptyString, post.
    + intros (pre & post & Heq). destruct pre; [by exists post|done].
  - cbn [str_in]. rewrite orb_true_iff, prefix_spec, IH. split.
    + intros [[post Hpost] | (pre & post & Heq)].
      * by exists EmptyString, post.
      * exists (String c pre), post. by rewrite string_app_cons, Heq.
    + intros (pre & post & Heq). destruct pre as [|x pre].
      * left. by exists post.
      * right. rewrite string_app_cons in Heq. injection Heq as _ Heq.
        by exists pre, post.
Qed.

Lemma str_in_trans (a b s : string) :
  str_in a b = true -> str_in b s = true -> str_in a s = true.
Proof.
  rewrite !str_in_spec. intros (p1 & q1 & ->) (p2 & q2 & ->).
  exists (p2 +:+ p1), (q1 +:+ q2). by rewrite !string_app_assoc.
Qed.

Lemma str_in_middle (pre sub post : string) : str_in sub (pre +:+ sub +:+ post) = true.
Proof. apply str_in_spec. by exists pre, post. Qed.

Lemma str_in_app_r (sub pre s : string) :
  str_in sub s = true -> str_in sub (pre +:+ s) = true.
Proof.
  rewrite !str_in_spec. intros (p & q & ->). exists (pre +:+ p), q.
  by rewrite string_app_assoc.
Qed.

Lemma prefix_app3 (a b c rest : string) :
  String.prefix (a +:+ b +:+ c) (a +:+ b +:+ c +:+ rest) = true.
Proof. apply prefix_spec. exists rest. by rewrite !string_app_assoc. Qed.

Lemma lstrip_clean (s : string) : starts_clean (lstrip s).
Proof.
  induction s as [|c s IH]; simpl; [done|].
  destruct (is_space c) eqn:Hc; [done|]. simpl. done.
Qed.

Lemma lstrip_of_clean (s : string) : starts_clean s -> lstrip s = s.
Proof. destruct s as [|c s]; simpl; [done|]. by intros ->. Qed.

Lemma rstrip_clean (s : string) : starts_clean s -> starts_clean (rstrip s).
Proof. destruct s as [|c s]; simpl; [done|]. intros Hc. rewrite Hc. exact Hc. Qed.

Lemma rstrip_idempotent (s : string) : rstrip (rstrip s) = rstrip s.
Proof.
  induction s as [|c s IH]; simpl; [done|].
  destruct (is_space c && bool_decide (rstrip s = EmptyString)) eqn:Hc; [done|].
  simpl. by rewrite IH, Hc.
Qed.

Lemma strip_idempotent (s : string) : strip (strip s) = strip s.
Proof.
  unfold strip. rewrite (lstrip_of_clean (rstrip (lstrip s))).
  - apply rstrip_idempotent.
  - apply rstrip_clean, lstrip_clean.
Qed.

Lemma lstrip_blank (s : string) : blank s = true -> lstrip s = EmptyString.
Proof.
  induction s as [|c s IH]; simpl; [done|].
  rewrite andb_true_iff. intros [-> Hs]. by apply IH.
Qed.

Lemma strip_blank (s : string) : blank s = true -> strip s = EmptyString.
Proof. intros Hs. unfold strip. by rewrite lstrip_blank. Qed.

Lemma count_words_blank (in_word : bool) (s : string) :
  blank s = true -> count_words in_word s = 0.
Proof.
  revert in_word. induction s as [|c s IH]; intros in_word; simpl; [done|].
  rewrite andb_true_iff. intros [-> Hs]. by apply IH.
Qed.

Lemma basename_no_slash (p : string) : str_in "/" (basename p) = false.
Proof.
  induction p as [|c p IH]; [done|]. cbn [basename].
  destruct (str_in "/" (String c p)) eqn:Hc; done.
Qed.

Lemma basename_of_no_slash (p : string) : str_in "/" p = false -> basename p = p.
Proof. destruct p as [|c p]; [done|]. cbn [basename]. by intros ->. Qed.

Lemma basename_idempotent (p : string) : basename (basename p) = basename p.
Proof. apply basename_of_no_slash, basename_no_slash. Qed.

Lemma splitext_basename_extension (p : string) :
  (splitext (basename p)).2 = (splitext p).2.
Proof.
  unfold splitext. rewrite basename_idempotent.
  destruct (split_last_dot (basename p)) as [[root ext]|]; [|done].
  by destruct (all_dots root).
Qed.


(** ** More on the two chunking paths *)

Lemma append_sub_chunks_markdown (filename title header_info : string)
    (sub_chunks : list string) (st : list (gmap string (value F)) * nat) :
  Forall (is_markdown_chunk filename title) st.1 ->
  Forall (is_markdown_chunk filename title)
         (append_sub_chunks filename title header_info sub_chunks st).1.
Proof.
  intros Hst. rewrite append_sub_chunks_closed. cbn [fst].
  apply Forall_app. split; [done|]. apply Forall_lookup. intros j chunk Hj.
  rewrite list_lookup_imap in Hj.
  destruct (sub_chunks !! j) as [x|] eqn:Hx; simplify_eq/=.
  exists header_info, (st.2 + j), j, (length sub_chunks), x.
  split; [by eapply lookup_lt_Some | done].
Qed.

Lemma markdown_loop_markdown (filename title : string) (header_splits : list Document)
    (st st' : list (gmap string (value F)) * nat) :
  markdown_loop filename title header_splits st = Ok st' ->
  Forall (is_markdown_chunk filename title) st.1 ->
  Forall (is_markdown_chunk filename title) st'.1.
Proof.
  revert st. induction header_splits as [|split rest IH]; intros st; simpl.
  - by intros [= <-].
  - destruct (sub_chunks_of split) as [sub_chunks|e]; run_result; [|done].
    intros Hloop Hst. apply (IH _ Hloop). by apply append_sub_chunks_markdown.
Qed.

(** What holds of every chunk the Markdown loop can build, once
    [total_chunks] is filled in, holds of every chunk of the body. *)
Lemma markdown_body_Forall (P : gmap string (value F) -> Prop)
    (text filename title : string) (chunks : list (gmap string (value F))) :
  (forall header_info chunk_index i n chunk_text total,
     i < n ->
     P (metadata_set "total_chunks" total
          (markdown_chunk filename title header_info chunk_index i n chunk_text))) ->
  markdown_body text filename title = Ok chunks ->
  Forall P chunks.
Proof.
  intros HP. unfold markdown_body.
  destruct (markdown_splitter text) as [header_splits|e]; run_result; [|done].
  destruct (markdown_loop filename title header_splits ([], 0)) as [st|e] eqn:Hloop;
    run_result; [|done].
  intros [= <-]. apply Forall_fmap.
  eapply Forall_impl; [apply (markdown_loop_markdown _ _ _ _ _ Hloop); constructor|].
  intros chunk (h & ci & i & n & x & Hlt & ->). by apply HP.
Qed.

Lemma chunk_general_Forall (P : gmap string (value F) -> Prop)
    (text filename title : string) (chunks : list (gmap string (value F))) :
  (forall n i chunk_text, i < n -> P (general_chunk filename title n i chunk_text)) ->
  _chunk_general_semantic text filename title = Ok chunks ->
  Forall P chunks.
Proof.
  intros HP. destruct (token_splitter text) as [text_chunks|e] eqn:Hsplit.
  - rewrite (chunk_general_ok _ _ _ _ Hsplit). intros [= <-].
    apply Forall_lookup. intros i chunk Hi. rewrite list_lookup_imap in Hi.
    destruct (text_chunks !! i) as [x|] eqn:Hx; simplify_eq/=.
    apply HP. by eapply lookup_lt_Some.
  - rewrite (proj2 (chunk_general_raise text filename title e) Hsplit). done.
Qed.

Lemma chunk_text_Forall (P : gmap string (value F) -> Prop)
    (text filename : string) (title : option string)
    (chunks : list (gmap string (value F))) :
  (forall header_info chunk_index i n chunk_text total,
     i < n ->
     P (metadata_set "total_chunks" total
          (markdown_chunk filename (title_or title (splitext (basename filename)).1)
             header_info chunk_index i n chunk_text))) ->
  (forall n i chunk_text,
     i < n ->
     P (general_chunk filename (title_or title (splitext (basename filename)).1)
          n i chunk_text)) ->
  chunk_text text filename title = Ok chunks ->
  Forall P chunks.
Proof.
  intros Hmd Hgen. unfold chunk_text.
  destruct (is_markdown_extension _); [|by apply chunk_general_Forall].
  unfold _chunk_markdown_semantic, try_except.
  destruct (markdown_body text filename _) as [body_chunks|e] eqn:Hbody.
  - intros [= <-]. by eapply markdown_body_Forall.
  - by apply chunk_general_Forall.
Qed.

(** X1: every chunk that [chunk_text] returns, on either path, has a
    text [content] without leading or trailing whitespace. *)
Theorem chunk_contents_trimmed (text filename : string) (title : option string)
    (chunks : list (gmap string (value F))) :
  chunk_text text filename title = Ok chunks ->
  Forall (fun chunk =>
            exists s, chunk !! "content" = Some (VStr s) /\
                      strip s = s /\ starts_clean s)
         chunks.
Proof.
  apply chunk_text_Forall.
  - intros h ci i n x total _. exists (strip x).
    rewrite metadata_set_content, markdown_chunk_content.
    split; [done|]. split; [apply strip_idempotent|].
    apply rstrip_clean, lstrip_clean.
  - intros n i x _. exists (strip x). split; [reflexivity|].
    split; [apply strip_idempotent|]. apply rstrip_clean, lstrip_clean.
Qed.

(** X2: when the body of the Markdown path succeeds, every chunk
    carries the document's [filename] and [title], [file_type] =
    ["markdown"], and a [sub_chunk_index] below its
    [total_sub_chunks]. *)
Theorem markdown_chunks_metadata (text filename title : string)
    (chunks : list (gmap string (value F))) :
  markdown_body text filename title = Ok chunks ->
  Forall (fun chunk =>
            metadata_get chunk "filename" = Some (VStr filename) /\
            metadata_get chunk "title" = Some (VStr title) /\
            metadata_get chunk "file_type" = Some (VStr "markdown") /\
            exists i n,
              metadata_get chunk "sub_chunk_index" = Some (VInt (Z.of_nat i)) /\
              metadata_get chunk "total_sub_chunks" = Some (VInt (Z.of_nat n)) /\
              i < n)
         chunks.
Proof.
  apply markdown_body_Forall. intros h ci i n x total Hlt.
  rewrite !metadata_get_set_ne by done.
  split; [reflexivity|]. split; [reflexivity|]. split; [reflexivity|].
  exists i, n. split; [reflexivity|]. split; [reflexivity|]. exact Hlt.
Qed.


Lemma sub_chunks_of_short (split : Document) :
  short_section split -> sub_chunks_of split = Ok [page_content split].
Proof.
  unfold short_section, sub_chunks_of, exceeds_chunk_size. intros Hlen.
  rewrite bool_decide_eq_false_2; [done | lia].
Qed.

Lemma markdown_loop_short (filename title : string) (header_splits : list Document)
    (st : list (gmap string (value F)) * nat) :
  Forall short_section header_splits ->
  markdown_loop filename title header_splits st
  = Ok (st.1 ++ imap (fun j split =>
                        markdown_chunk filename title (header_info_of split)
                          (st.2 + j) 0 1 (page_content split))
                     header_splits,
        st.2 + length header_splits).
Proof.
  intros Hshort. revert st.
  induction Hshort as [|split rest Hsplit _ IH]; intros [chunks chunk_index].
  - simpl. by rewrite app_nil_r, Nat.add_0_r.
  - cbn [markdown_loop]. rewrite (sub_chunks_of_short split Hsplit). run_result.
    rewrite IH, append_sub_chunks_closed. cbn [fst snd length imap].
    rewrite <- app_assoc, !Nat.add_0_r. simpl.
    replace (chunk_index + S (length rest)) with (chunk_index + 1 + length rest) by lia.
    do 4 f_equal. apply imap_ext. intros j s _. simpl. f_equal. lia.
Qed.

(** X3: when every header section has at most [CHUNK_SIZE] characters,
    the Markdown path succeeds whatever the token splitter would do:
    it returns one chunk per section, in order, whose content is the
    trimmed section text, whose [section_header] is the section's
    header, and which is sub-chunk 0 of 1. *)
Theorem short_sections_one_chunk_each (text filename title : string)
    (header_splits : list Document) :
  markdown_splitter text = Ok header_splits ->
  Forall short_section header_splits ->
  exists chunks,
    _chunk_markdown_semantic text filename title = Ok chunks /\
    length chunks = length header_splits /\
    forall i split, header_splits !! i = Some split ->
      exists chunk,
        chunks !! i = Some chunk /\
        chunk !! "content" = Some (VStr (strip (page_content split))) /\
        metadata_get chunk "section_header" = Some (VStr (header_info_of split)) /\
        metadata_get chunk "chunk_index" = Some (VInt (Z.of_nat i)) /\
        metadata_get chunk "sub_chunk_index" = Some (VInt 0) /\
        metadata_get chunk "total_sub_chunks" = Some (VInt 1) /\
        metadata_get chunk "total_chunks"
        = Some (VInt (Z.of_nat (length header_splits))).
Proof.
  intros Hsplit Hshort.
  unfold _chunk_markdown_semantic, markdown_body. rewrite Hsplit. run_result.
  rewrite (markdown_loop_short filename title header_splits ([], 0) Hshort).
  run_result. cbn [fst snd try_except]. rewrite app_nil_l.
  eexists. split; [done|]. rewrite length_fmap, !length_imap. split; [done|].
  intros i split Hi. rewrite list_lookup_fmap, list_lookup_imap, Hi. simpl.
  eexists. split; [done|]. rewrite metadata_set_content.
  split; [reflexivity|]. rewrite !metadata_get_set_ne by done.
  split; [reflexivity|]. split; [reflexivity|]. split; [reflexivity|].
  split; [reflexivity|].
  eapply metadata_get_set_eq. by rewrite markdown_chunk_index.
Qed.

Lemma markdown_loop_raises (filename title : string) (header_splits : list Document)
    (st : list (gmap string (value F)) * nat) (split : Document) (e : exn) :
  split ∈ header_splits -> sub_chunks_of split = Raise e ->
  exists e', markdown_loop filename title header_splits st = Raise e'.
Proof.
  intros Hin Hfail. revert st.
  induction header_splits as [|first rest IH]; intros st.
  - by apply elem_of_nil in Hin.
  - cbn [markdown_loop]. destruct (sub_chunks_of first) as [sub_chunks|e1] eqn:Hfirst;
      run_result; [|by eexists].
    apply elem_of_cons in Hin as [->|Hin]; [congruence|]. by apply IH.
Qed.

(** X4: when the token splitter raises on a header section that is
    longer than [CHUNK_SIZE], the Markdown path gives up all its
    sections and returns what the general path returns on the whole
    text; it raises only if the token splitter also raises on the
    whole text. *)
Theorem section_split_failure_falls_back (text filename title : string)
    (header_splits : list Document) (split : Document) (e : exn) :
  markdown_splitter text = Ok header_splits ->
  split ∈ header_splits ->
  (CHUNK_SIZE < Z.of_nat (String.length (page_content split)))%Z ->
  token_splitter (page_content split) = Raise e ->
  _chunk_markdown_semantic text filename title
  = _chunk_general_semantic text filename title /\
  (forall e', _chunk_markdown_semantic text filename title = Raise e' ->
     token_splitter text = Raise e').
Proof.
  intros Hsplit Hin Hlong Hfail.
  assert (sub_chunks_of split = Raise e) as Hsub.
  { unfold sub_chunks_of, exceeds_chunk_size. by rewrite bool_decide_eq_true_2. }
  destruct (markdown_loop_raises filename title header_splits ([], 0) split e Hin Hsub)
    as [e1 Hloop].
  assert (_chunk_markdown_semantic text filename title
          = _chunk_general_semantic text filename title) as Heq.
  { unfold _chunk_markdown_semantic, markdown_body. rewrite Hsplit. run_result.
    by rewrite Hloop. }
  split; [done|]. intros e'. rewrite Heq. apply chunk_general_raise.
Qed.

(** X5: the general path returns one chunk per piece of the token
    splitter, in order, with the trimmed piece as content and the word
    count of the piece; a piece of whitespace only is not dropped but
    becomes a chunk with empty content and [word_count] 0. *)
Theorem general_path_one_chunk_per_piece (text filename title : string)
    (text_chunks : list string) :
  token_splitter text = Ok text_chunks ->
  exists chunks,
    _chunk_general_semantic text filename title = Ok chunks /\
    length chunks = length text_chunks /\
    (fun chunk => chunk !! "content") <$> chunks
    = (fun piece => Some (VStr (strip piece))) <$> text_chunks /\
    (fun chunk => metadata_get chunk "word_count") <$> chunks
    = (fun piece => Some (VInt (Z.of_nat (word_count piece)))) <$> text_chunks /\
    (forall i piece chunk,
       text_chunks !! i = Some piece -> chunks !! i = Some chunk ->
       blank piece = true ->
       chunk !! "content" = Some (VStr EmptyString) /\
       metadata_get chunk "word_count" = Some (VInt 0)).
Proof.
  intros Hsplit. rewrite (chunk_general_ok _ _ _ _ Hsplit). eexists.
  split; [done|]. split; [apply length_imap|]. split; [|split].
  - apply list_eq. intros i. rewrite !list_lookup_fmap, list_lookup_imap.
    by destruct (text_chunks !! i).
  - apply list_eq. intros i. rewrite !list_lookup_fmap, list_lookup_imap.
    by destruct (text_chunks !! i).
  - intros i piece chunk Hpiece Hchunk Hblank.
    rewrite list_lookup_imap, Hpiece in Hchunk. simplify_eq/=. split.
    + change (Some (VStr (strip piece)) = Some (VStr (F:=F) EmptyString)).
      by rewrite (strip_blank piece Hblank).
    + change (Some (VInt (F:=F) (Z.of_nat (word_count piece))) = Some (VInt 0)).
      unfold word_count. by rewrite (count_words_blank false piece Hblank).
Qed.


(** ** Classification and key topics together *)

Lemma key_topic_occurs (text topic : string) :
  topic ∈ key_topics (_extract_semantic_info text) ->
  str_in topic (lower text) = true.
Proof.
  cbn [_extract_semantic_info key_topics].
  rewrite extract_topics_filter, list_elem_of_filter. by intros [? _].
Qed.

(** X6: the content type is always one of the five listed values, and
    a chunk whose key topics include "workers compensation", "injury",
    "claim" or "benefits" is classified as "claims". *)
Theorem claims_topics_give_claims_type (text : string) :
  content_type (_extract_semantic_info text)
    ∈ ["claims"; "legal"; "procedural"; "contact"; "general"] /\
  (forall topic,
     topic ∈ ["workers compensation"; "injury"; "claim"; "benefits"] ->
     topic ∈ key_topics (_extract_semantic_info text) ->
     content_type (_extract_semantic_info text) = "claims").
Proof.
  split.
  - cbn [_extract_semantic_info content_type]. unfold classify.
    repeat (match goal with |- context [if ?b then _ else _] => destruct b end);
      rewrite !elem_of_cons; auto 10.
  - intros topic Htopic Hkey. apply key_topic_occurs in Hkey.
    assert (exists word, word ∈ claims_words /\ str_in word (lower text) = true)
      as Hword.
    { rewrite !elem_of_cons, elem_of_nil in Htopic.
      destruct Htopic as [-> | [-> | [-> | [-> | []]]]].
      - exists "compensation". split; [unfold claims_words; rewrite !elem_of_cons; auto|].
        by apply (str_in_trans _ "workers compensation").
      - exists "injury". split; [unfold claims_words; rewrite !elem_of_cons; auto|done].
      - exists "claim". split; [unfold claims_words; rewrite !elem_of_cons; auto|done].
      - exists "benefits". split; [unfold claims_words; rewrite !elem_of_cons; auto 6|done]. }
    apply any_in_true in Hword.
    cbn [_extract_semantic_info content_type]. unfold classify. by rewrite Hword.
Qed.

(** ** [extract_text] and [process_document] *)

Lemma extract_text_supported (file_path text : string) :
  extract_text file_path = Ok text ->
  lower (splitext file_path).2 ∈ [".pdf"; ".md"; ".markdown"].
Proof.
  unfold extract_text, is_markdown_extension. rewrite !elem_of_cons.
  destruct (bool_decide (lower (splitext file_path).2 = ".pdf")) eqn:Hpdf.
  { apply bool_decide_eq_true in Hpdf. auto. }
  destruct (bool_decide (lower (splitext file_path).2 = ".md")) eqn:Hmd.
  { apply bool_decide_eq_true in Hmd. auto. }
  destruct (bool_decide (lower (splitext file_path).2 = ".markdown")) eqn:Hmarkdown.
  { apply bool_decide_eq_true in Hmarkdown. auto. }
  done.
Qed.

Lemma title_or_twice (title : option string) (fallback : string) :
  title_or (Some (title_or title fallback)) fallback = title_or title fallback.
Proof.
  unfold title_or. destruct title as [t|].
  - destruct (bool_decide (t = EmptyString)) eqn:Ht.
    + by destruct (bool_decide (fallback = EmptyString)).
    + by rewrite Ht.
  - by destruct (bool_decide (fallback = EmptyString)).
Qed.

Lemma chunk_text_totalled (text filename : string) (title : option string)
    (chunks : list (gmap string (value F))) :
  chunk_text text filename title = Ok chunks -> totalled (length chunks) chunks.
Proof.
  unfold chunk_text. destruct (is_markdown_extension _); intros Hchunks.
  - by apply chunk_markdown_numbered in Hchunks as [_ ?].
  - by apply chunk_general_numbered in Hchunks as [_ ?].
Qed.

(** X7: a document that [process_document] returns is consistent: its
    filename is the base name of the path, its title is the given title
    or else the file stem, its content type is one of the three
    supported extensions in lower case, [total_chunks] is the number of
    its chunks, and every chunk carries this filename, this title and
    this [total_chunks] in its metadata. *)
Theorem process_document_consistent (file_path : string) (title : option string)
    (doc : doc_info F) :
  process_document file_path title = Ok doc ->
  di_filename doc = basename file_path /\
  di_title doc = title_or title (splitext (basename file_path)).1 /\
  di_content_type doc ∈ [".pdf"; ".md"; ".markdown"] /\
  di_total_chunks doc = length (di_chunks doc) /\
  Forall (fun chunk =>
            metadata_get chunk "filename" = Some (VStr (di_filename doc)) /\
            metadata_get chunk "title" = Some (VStr (di_title doc)) /\
            metadata_get chunk "total_chunks"
            = Some (VInt (Z.of_nat (di_total_chunks doc))))
         (di_chunks doc).
Proof.
  unfold process_document.
  destruct (extract_text file_path) as [text|e] eqn:Hextract; run_result; [|done].
  destruct (getsize file_path) as [file_size|e]; run_result; [|done].
  destruct (chunk_text text (basename file_path) _) as [chunks|e] eqn:Hchunks;
    run_result; [|done].
  intros [= <-]. cbn [di_filename di_title di_content_type di_total_chunks di_chunks].
  split; [done|]. split; [done|]. split.
  { rewrite splitext_basename_extension. by eapply extract_text_supported. }
  split; [done|].
  pose proof (chunk_text_totalled _ _ _ _ Hchunks) as Htotal.
  assert (Forall (fun chunk =>
                    metadata_get chunk "filename" = Some (VStr (basename file_path)) /\
                    metadata_get chunk "title"
                    = Some (VStr (title_or title (splitext (basename file_path)).1)))
                 chunks) as Hmeta.
  { revert Hchunks. apply chunk_text_Forall.
    - intros h ci i n x total _. rewrite !metadata_get_set_ne by done.
      rewrite basename_idempotent, title_or_twice. split; reflexivity.
    - intros n i x _. rewrite basename_idempotent, title_or_twice. split; reflexivity. }
  apply Forall_forall. intros chunk Hin.
  destruct (proj1 (Forall_forall _ _) Hmeta chunk Hin) as [Hfilename Htitle].
  split; [done|]. split; [done|]. by apply Htotal.
Qed.


(** ** Failures of the embedding service *)

(** X8: the two embedding calls raise nothing but an [Exception] whose
    message is the fixed prefix followed by the text of the cause: a
    failure of the service, or for [get_embedding] an answer without
    any vector.  [get_embedding] returns the first vector of the
    answer. *)
Theorem embedding_errors_wrapped :
  (forall texts e,
     get_embeddings_batch texts = Raise e ->
     exists cause,
       openai_embeddings_create (VList texts) = Raise cause /\
       e = Exception ("Error getting batch embeddings: " +:+ exn_str cause)) /\
  (forall text e,
     get_embedding text = Raise e ->
     exists cause,
       (openai_embeddings_create (VStr text) = Raise cause \/
        openai_embeddings_create (VStr text) = Ok [] /\ cause = IndexError) /\
       e = Exception ("Error getting embedding: " +:+ exn_str cause)) /\
  (forall text embedding,
     get_embedding text = Ok embedding <->
     exists rest, openai_embeddings_create (VStr text) = Ok (embedding :: rest)).
Proof.
  split; [|split].
  - intros texts e. unfold get_embeddings_batch, try_except.
    destruct (openai_embeddings_create (VList texts)) as [v|cause]; [done|].
    intros [= <-]. by exists cause.
  - intros text e. unfold get_embedding, try_except.
    destruct (openai_embeddings_create (VStr text)) as [[|v rest]|cause]; run_result.
    + intros [= <-]. exists IndexError. split; [by right | done].
    + done.
    + intros [= <-]. exists cause. split; [by left | done].
  - intros text embedding. unfold get_embedding, try_except.
    destruct (openai_embeddings_create (VStr text)) as [[|v rest]|cause]; run_result.
    + split; [done|]. by intros [rest [=]].
    + split.
      * intros [= ->]. by exists rest.
      * by intros [rest' [= -> _]].
    + split; [done|]. by intros [rest [=]].
Qed.

Lemma comprehension_raises {A B} (f : A -> result B) (xs : list A) (x : A) (e : exn) :
  (forall y e', f y = Raise e' -> e' = e) ->
  x ∈ xs -> f x = Raise e ->
  comprehension f xs = Raise e.
Proof.
  intros Honly Hin Hfail. induction xs as [|y ys IH]; [by apply elem_of_nil in Hin|].
  simpl. destruct (f y) as [b|e'] eqn:Hy; run_result.
  - apply elem_of_cons in Hin as [->|Hin]; [congruence|]. by rewrite (IH Hin).
  - by rewrite (Honly y e' Hy).
Qed.

(** X9: when some chunk of the list has no [content], [embed_chunks]
    raises [KeyError] for that key, whatever the embedding service
    would answer. *)
Theorem embed_chunks_missing_content (h : gmap loc (gmap string (value F)))
    (chunks : list loc) (r : loc) :
  r ∈ chunks -> (h !!! r) !! "content" = None ->
  embed_chunks h chunks = Raise (KeyError "content").
Proof.
  intros Hin Hnone. unfold embed_chunks.
  rewrite (comprehension_raises _ chunks r (KeyError "content")); [done | | done |].
  - intros y e'. unfold getitem. by destruct ((h !!! y) !! "content"); intros [= <-].
  - unfold getitem. by rewrite Hnone.
Qed.

Lemma set_embedding_loop_overrun (chunks : list loc) (embeddings : list (list F))
    (start : nat) (h : gmap loc (gmap string (value F))) :
  start <= length chunks -> length chunks < start + length embeddings ->
  for_each (set_embedding chunks) (enumerate start embeddings) h = Raise IndexError.
Proof.
  revert start h. induction embeddings as [|e es IH]; intros start h Hstart Hlen.
  - simpl in Hlen. lia.
  - rewrite enumerate_cons. cbn [for_each].
    destruct (chunks !! start) as [r|] eqn:Hr.
    + rewrite (set_embedding_at _ _ _ _ _ Hr). run_result.
      apply lookup_lt_Some in Hr. apply IH; simpl in Hlen; lia.
    + by rewrite (set_embedding_out_of_range _ _ _ _ Hr).
Qed.

(** X10: when the service answers with more vectors than there are
    chunks, [embed_chunks] raises [IndexError]. *)
Theorem embed_chunks_too_many_vectors (h : gmap loc (gmap string (value F)))
    (chunks : list loc) (texts : list (value F)) (embeddings : list (list F)) :
  comprehension (fun chunk => getitem (h !!! chunk) "content") chunks = Ok texts ->
  openai_embeddings_create (VList texts) = Ok embeddings ->
  length chunks < length embeddings ->
  embed_chunks h chunks = Raise IndexError.
Proof.
  intros Htexts Hcreate Hlen. unfold embed_chunks. rewrite Htexts. run_result.
  unfold get_embeddings_batch, try_except. rewrite Hcreate. run_result.
  rewrite set_embedding_loop_overrun; [done | lia | simpl; lia].
Qed.

(** X11: when the service answers with fewer vectors than there are
    chunks, [embed_chunks] still succeeds: with distinct chunk objects,
    the chunks at the positions that have a vector get it as their
    [embedding], and the objects of the later chunks are left as they
    were, without one. *)
Theorem embed_chunks_fewer_vectors (h : gmap loc (gmap string (value F)))
    (chunks : list loc) (texts : list (value F)) (embeddings : list (list F)) :
  comprehension (fun chunk => getitem (h !!! chunk) "content") chunks = Ok texts ->
  openai_embeddings_create (VList texts) = Ok embeddings ->
  length embeddings <= length chunks ->
  NoDup chunks ->
  exists h',
    embed_chunks h chunks = Ok (h', chunks) /\
    (forall i r e, chunks !! i = Some r -> embeddings !! i = Some e ->
       h' !!! r = <["embedding" := VList (VFloat <$> e)]> (h !!! r)) /\
    (forall i r, chunks !! i = Some r -> length embeddings <= i -> h' !! r = h !! r).
Proof.
  intros Htexts Hcreate Hlen Hnodup.
  destruct (set_embedding_loop_ok chunks embeddings 0 h) as [h' Hloop]; [lia|].
  destruct (set_embedding_loop_spec _ _ _ _ _ Hloop) as [Hout Hin].
  rewrite drop_0 in Hout, Hin.
  exists h'. split; [|split].
  - unfold embed_chunks. rewrite Htexts. run_result.
    unfold get_embeddings_batch, try_except. rewrite Hcreate. run_result.
    by rewrite Hloop.
  - intros i r e Hi He.
    destruct (Hin r) as (j & e' & Hj & Hx & He' & Hh').
    { apply list_elem_of_lookup. exists i. apply lookup_take_Some.
      split; [done|]. by eapply lookup_lt_Some. }
    rewrite Nat.sub_0_r in He'.
    assert (j = i) as -> by (by apply (NoDup_lookup chunks j i r)).
    by simplify_eq.
  - intros i r Hi Hge. apply Hout. intros Hr.
    apply list_elem_of_lookup in Hr as [j Hj].
    apply lookup_take_Some in Hj as [Hj Hlt].
    assert (j = i) by (by apply (NoDup_lookup chunks j i r)). lia.
Qed.


(** ** Missing fields, queries and the upload run *)

Lemma append_chunk_row_raises (document_id : string) (chunk_data : list (chunk_row F))
    (i : nat) (chunk : gmap string (value F)) (e : exn) :
  append_chunk_row document_id chunk_data (i, chunk) = Raise e ->
  exists key, key ∈ ["content"; "metadata"; "embedding"] /\
              chunk !! key = None /\ e = KeyError key.
Proof.
  unfold append_chunk_row, getitem. cbn [fst snd].
  destruct (chunk !! "content") as [content|] eqn:Hc; run_result.
  2: { intros [= <-]. exists "content". rewrite !elem_of_cons. auto. }
  destruct (chunk !! "metadata") as [metadata|] eqn:Hm; run_result.
  2: { intros [= <-]. exists "metadata". rewrite !elem_of_cons. auto. }
  destruct (chunk !! "embedding") as [embedding|] eqn:He; run_result; [done|].
  intros [= <-]. exists "embedding". rewrite !elem_of_cons. auto 6.
Qed.

Lemma chunk_rows_loop_raises (document_id : string)
    (chunks : list (gmap string (value F))) (start : nat)
    (chunk_data : list (chunk_row F)) (chunk : gmap string (value F)) (key : string) :
  chunk ∈ chunks -> key ∈ ["content"; "metadata"; "embedding"] ->
  chunk !! key = None ->
  exists key',
    key' ∈ ["content"; "metadata"; "embedding"] /\
    for_each (append_chunk_row document_id) (enumerate start chunks) chunk_data
    = Raise (KeyError key').
Proof.
  intros Hin Hkey Hnone. revert start chunk_data.
  induction chunks as [|first rest IH]; intros start chunk_data.
  - by apply elem_of_nil in Hin.
  - rewrite enumerate_cons. cbn [for_each].
    destruct (append_chunk_row document_id chunk_data (start, first))
      as [rows|e] eqn:Hrow; run_result.
    + apply elem_of_cons in Hin as [->|Hin]; [|by apply IH].
      destruct (append_chunk_row_ok _ _ _ _ _ Hrow)
        as (row & _ & _ & _ & Hc & (md & Hm & _) & He).
      rewrite !elem_of_cons, elem_of_nil in Hkey.
      destruct Hkey as [-> | [-> | [-> | []]]]; congruence.
    + destruct (append_chunk_row_raises _ _ _ _ _ Hrow) as (key' & Hkey' & _ & ->).
      by exists key'.
Qed.

(** X12: when some chunk lacks [content], [metadata] or [embedding],
    [insert_chunks] raises [KeyError] for one of these keys before the
    store is asked, so no row is written. *)
Theorem insert_chunks_missing_field (db : database F) (document_id : string)
    (chunks : list (gmap string (value F))) (chunk : gmap string (value F))
    (key : string) :
  chunk ∈ chunks -> key ∈ ["content"; "metadata"; "embedding"] ->
  chunk !! key = None ->
  exists key',
    key' ∈ ["content"; "metadata"; "embedding"] /\
    insert_chunks db document_id chunks = Raise (KeyError key').
Proof.
  intros Hin Hkey Hnone.
  destruct (chunk_rows_loop_raises document_id chunks 0 [] chunk key Hin Hkey Hnone)
    as (key' & Hkey' & Hloop).
  exists key'. split; [done|]. unfold insert_chunks. by rewrite Hloop.
Qed.

Lemma embed_chunks_returns_list (h h' : gmap loc (gmap string (value F)))
    (chunks chunks' : list loc) :
  embed_chunks h chunks = Ok (h', chunks') -> chunks' = chunks.
Proof.
  unfold embed_chunks.
  destruct (comprehension _ chunks) as [texts|e]; run_result; [|done].
  destruct (get_embeddings_batch texts) as [embeddings|e]; run_result; [|done].
  destruct (for_each _ _ h) as [h1|e]; run_result; [|done].
  by intros [= _ <-].
Qed.

Lemma process_document_total_chunks (file_path : string) (title : option string)
    (doc : doc_info F) :
  process_document file_path title = Ok doc ->
  di_total_chunks doc = length (di_chunks doc).
Proof.
  unfold process_document.
  destruct (extract_text file_path); run_result; [|done].
  destruct (getsize file_path); run_result; [|done].
  destruct (chunk_text _ _ _); run_result; [|done].
  by intros [= <-].
Qed.

(** The steps of a successful [upload_file]. *)
Lemma upload_file_ok (db db' : database F) (file_path document_id : string) :
  upload_file db file_path = (db', Ok document_id) ->
  exists doc h' db1,
    process_document file_path None = Ok doc /\
    embed_chunks (allocate (di_chunks doc)).1 (allocate (di_chunks doc)).2
    = Ok (h', (allocate (di_chunks doc)).2) /\
    insert_document db (di_filename doc) (di_title doc) (di_content_type doc)
      (di_file_size doc) = Ok (db1, document_id) /\
    insert_chunks db1 document_id (deref h' (allocate (di_chunks doc)).2) = Ok db'.
Proof.
  unfold upload_file.
  destruct (process_document file_path None) as [doc|e]; [|done].
  destruct (allocate (di_chunks doc)) as [h chunks] eqn:Halloc.
  destruct (embed_chunks h chunks) as [[h' chunks']|e] eqn:Hembed; [|done].
  pose proof (embed_chunks_returns_list _ _ _ _ Hembed) as ->.
  destruct (insert_document db _ _ _ _) as [[db1 id]|e] eqn:Hdocument; [|done].
  destruct (insert_chunks db1 id _) as [db2|e] eqn:Hinsert; [|done].
  intros [= <- <-]. exists doc, h', db1. rewrite Halloc. cbn [fst snd]. done.
Qed.

Lemma filter_all {A} (P : A -> Prop) `{forall x, Decision (P x)} (l : list A) :
  Forall P l -> filter P l = l.
Proof.
  induction 1 as [|x l Hx _ IH]; [done|]. by rewrite filter_cons_True, IH.
Qed.

Lemma filter_none {A} (P : A -> Prop) `{forall x, Decision (P x)} (l : list A) :
  Forall (fun x => ~ P x) l -> filter P l = [].
Proof.
  induction 1 as [|x l Hx _ IH]; [done|]. by rewrite filter_cons_False, IH.
Qed.

(** X13: after a successful [upload_file], when the new id was not in
    use before and the store answers, [get_chunk_count] of the new id
    is the document's [total_chunks] and [get_document_info] returns
    the row with the document's filename, title, content type and
    size. *)
Theorem upload_then_query (db db' : database F) (file_path document_id : string) :
  upload_file db file_path = (db', Ok document_id) ->
  select_fault db' = None ->
  Forall (fun row => doc_id row <> document_id) (chat_bot_documents db) ->
  Forall (fun row => row_document_id row <> document_id) (chat_bot_document_chunks db) ->
  exists doc,
    process_document file_path None = Ok doc /\
    get_chunk_count db' document_id = Ok (di_total_chunks doc) /\
    get_document_info db' document_id
    = Ok (Some {| doc_id := document_id;
                  doc_filename := di_filename doc;
                  doc_title := di_title doc;
                  doc_content_type := di_content_type doc;
                  doc_file_size := di_file_size doc |}).
Proof.
  intros Hupload Hfault Hdocs Hrows.
  destruct (upload_file_ok _ _ _ _ Hupload) as (doc & h' & db1 & Hdoc & _ & Hdocument & Hinsert).
  exists doc. split; [done|].
  destruct (insert_chunks_rows _ _ _ _ Hinsert) as (Hsame & new_rows & Hnew & Hlen & Hrow).
  unfold insert_document in Hdocument.
  destruct (documents_fault db (di_filename doc)); [done|].
  injection Hdocument as <- <-. cbn [chat_bot_documents chat_bot_document_chunks] in *.
  unfold get_chunk_count, get_document_info. rewrite Hfault, Hnew, Hsame. split.
  - f_equal. rewrite filter_app, length_app.
    rewrite (filter_none _ (chat_bot_document_chunks db)) by done.
    rewrite (filter_all _ new_rows).
    2: { apply Forall_lookup. intros i row Hi. by destruct (Hrow i row Hi) as [? _]. }
    simpl. rewrite Hlen. unfold deref, allocate. cbn [snd].
    rewrite length_fmap, length_seq.
    symmetry. by eapply process_document_total_chunks.
  - do 2 f_equal. rewrite filter_app.
    rewrite (filter_none _ (chat_bot_documents db)) by done.
    simpl. by rewrite filter_cons_True.
Qed.


(** X14: [upload_file] writes the document row only after the embedding
    step has succeeded, and does not take it back: when
    [insert_chunks] then fails, the database keeps the new document
    row, with the generated id and the document's attributes, and has
    no chunk row for it. *)
Theorem upload_file_keeps_document_row (db db1 : database F) (file_path : string)
    (doc : doc_info F) (h' : gmap loc (gmap string (value F)))
    (document_id : string) (e : exn) :
  process_document file_path None = Ok doc ->
  embed_chunks (allocate (di_chunks doc)).1 (allocate (di_chunks doc)).2
  = Ok (h', (allocate (di_chunks doc)).2) ->
  insert_document db (di_filename doc) (di_title doc) (di_content_type doc)
    (di_file_size doc) = Ok (db1, document_id) ->
  insert_chunks db1 document_id (deref h' (allocate (di_chunks doc)).2) = Raise e ->
  upload_file db file_path = (db1, Raise e) /\
  document_id = generated_id db /\
  chat_bot_documents db1
  = chat_bot_documents db ++
    [{| doc_id := document_id;
        doc_filename := di_filename doc;
        doc_title := di_title doc;
        doc_content_type := di_content_type doc;
        doc_file_size := di_file_size doc |}] /\
  chat_bot_document_chunks db1 = chat_bot_document_chunks db.
Proof.
  intros Hdoc Hembed Hdocument Hinsert. split.
  - unfold upload_file. rewrite Hdoc.
    destruct (allocate (di_chunks doc)) as [h chunks]. cbn [fst snd] in *.
    by rewrite Hembed, Hdocument, Hinsert.
  - unfold insert_document in Hdocument.
    destruct (documents_fault db (di_filename doc)); [done|].
    by injection Hdocument as <- <-.
Qed.

Lemma upload_file_grows (db : database F) (file_path : string) :
  chat_bot_documents db `prefix_of` chat_bot_documents (upload_file db file_path).1 /\
  chat_bot_document_chunks db
    `prefix_of` chat_bot_document_chunks (upload_file db file_path).1.
Proof.
  unfold upload_file.
  destruct (process_document file_path None) as [doc|e]; [|done].
  destruct (allocate (di_chunks doc)) as [h chunks].
  destruct (embed_chunks h chunks) as [[h' chunks']|e]; [|done].
  destruct (insert_document db _ _ _ _) as [[db1 id]|e] eqn:Hdocument; [|done].
  assert (chat_bot_documents db `prefix_of` chat_bot_documents db1 /\
          chat_bot_document_chunks db1 = chat_bot_document_chunks db) as [Hdocs Hrows].
  { unfold insert_document in Hdocument.
    destruct (documents_fault db (di_filename doc)); [done|].
    injection Hdocument as <- <-. split; [by apply prefix_app_r | done]. }
  destruct (insert_chunks db1 id _) as [db2|e] eqn:Hinsert; cbn [fst].
  - destruct (insert_chunks_rows _ _ _ _ Hinsert) as (Hsame & new_rows & Hnew & _).
    rewrite Hsame, Hnew, Hrows. split; [done|]. by apply prefix_app_r.
  - by rewrite Hrows.
Qed.

Lemma upload_loop_grows (file_paths : list string) (db : database F) :
  let db' := foldl (fun db file_path =>
                      if path_exists file_path then (upload_file db file_path).1 else db)
                   db file_paths in
  chat_bot_documents db `prefix_of` chat_bot_documents db' /\
  chat_bot_document_chunks db `prefix_of` chat_bot_document_chunks db'.
Proof.
  revert db. induction file_paths as [|p ps IH]; intros db; simpl; [done|].
  destruct (IH (if path_exists p then (upload_file db p).1 else db)) as [Hdocs Hrows].
  destruct (path_exists p); [|done].
  destruct (upload_file_grows db p) as [Hdocs1 Hrows1].
  split; etrans; done.
Qed.

(** X15: [upload_documents] only appends: whatever the files and
    whatever fails on the way, the documents and the chunk rows that
    were in the database are still there, in place, at the start of
    the two tables; and when a required setting is missing, or a
    service cannot be built, nothing at all is written. *)
Theorem upload_documents_append_only (db : database F) (file_paths : list string) :
  chat_bot_documents db
    `prefix_of` chat_bot_documents (upload_documents db file_paths).1 /\
  chat_bot_document_chunks db
    `prefix_of` chat_bot_document_chunks (upload_documents db file_paths).1 /\
  (forall e, validate = Raise e -> upload_documents db file_paths = (db, Some e)) /\
  (forall e, initialize = Raise e -> upload_documents db file_paths = (db, Some e)).
Proof.
  assert (forall e, initialize = Raise e ->
            upload_documents db file_paths = (db, Some e)) as Hfatal.
  { intros e He. unfold upload_documents. by rewrite He. }
  split; [|split; [|split; [|exact Hfatal]]].
  - unfold upload_documents. destruct initialize; [|done].
    by destruct (upload_loop_grows file_paths db).
  - unfold upload_documents. destruct initialize; [|done].
    by destruct (upload_loop_grows file_paths db).
  - intros e He. apply Hfatal. unfold initialize. by rewrite He.
Qed.

Lemma upload_loop_filter (file_paths : list string) (db : database F) :
  foldl (fun db file_path =>
           if path_exists file_path then (upload_file db file_path).1 else db)
        db file_paths
  = foldl (fun db file_path =>
             if path_exists file_path then (upload_file db file_path).1 else db)
          db (filter (fun file_path => path_exists file_path = true) file_paths).
Proof.
  revert db. induction file_paths as [|p ps IH]; intros db; [done|].
  rewrite filter_cons. destruct (path_exists p) eqn:Hp.
  - rewrite decide_True by done. simpl. rewrite Hp. apply IH.
  - rewrite decide_False by (by intros ?). simpl. rewrite Hp. apply IH.
Qed.

(** X16: paths that do not exist have no effect on [upload_documents],
    and a run over two lists in a row writes what a run over the first
    list followed by a run over the second writes. *)
Theorem upload_documents_skips_and_composes (db : database F)
    (file_paths more_paths : list string) :
  upload_documents db file_paths
  = upload_documents db (filter (fun file_path => path_exists file_path = true)
                                file_paths) /\
  (upload_documents db (file_paths ++ more_paths)).1
  = (upload_documents (upload_documents db file_paths).1 more_paths).1.
Proof.
  unfold upload_documents. destruct initialize as [ok|e]; [|done]. cbn [fst]. split.
  - f_equal. apply upload_loop_filter.
  - by rewrite foldl_app.
Qed.

(** ** [Config.validate] *)

Lemma collect_names (vars : list (string * option string)) (acc : list string) :
  foldl (fun missing_vars var =>
           if unset var.2 then missing_vars ++ [var.1] else missing_vars) acc vars
  = acc ++ (filter (fun var => unset var.2 = true) vars).*1.
Proof.
  revert acc. induction vars as [|v vs IH]; intros acc; simpl.
  - by rewrite app_nil_r.
  - rewrite IH, filter_cons. destruct (unset v.2) eqn:Hv.
    + rewrite decide_True by done. by rewrite <- app_assoc.
    + rewrite decide_False by done. done.
Qed.

(** X17: [validate] succeeds exactly when the four required settings
    are all set to a non-empty value; otherwise it raises one
    [ValueError] whose message lists every missing setting, in the
    order OPENAI_API_KEY, OPENROUTER_API_KEY, SUPABASE_URL,
    SUPABASE_KEY, separated by commas. *)
Theorem validate_reports_every_missing_setting :
  let required_vars :=
    [ ("OPENAI_API_KEY", OPENAI_API_KEY);
      ("OPENROUTER_API_KEY", OPENROUTER_API_KEY);
      ("SUPABASE_URL", SUPABASE_URL);
      ("SUPABASE_KEY", SUPABASE_KEY) ] in
  let missing_vars := (filter (fun var => unset var.2 = true) required_vars).*1 in
  (validate = Ok true <->
   unset OPENAI_API_KEY = false /\ unset OPENROUTER_API_KEY = false /\
   unset SUPABASE_URL = false /\ unset SUPABASE_KEY = false) /\
  (missing_vars <> [] ->
   validate = Raise (ValueError ("Missing required environment variables: "
                                 +:+ join ", " missing_vars))).
Proof.
  intros required_vars missing_vars.
  assert (validate
          = match missing_vars with
            | [] => Ok true
            | _ :: _ =>
                Raise (ValueError ("Missing required environment variables: "
                                   +:+ join ", " missing_vars))
            end) as Hvalidate.
  { unfold validate. by rewrite collect_names. }
  rewrite Hvalidate. split.
  - subst missing_vars required_vars. rewrite !filter_cons, filter_nil. cbn [snd].
    destruct (unset OPENAI_API_KEY), (unset OPENROUTER_API_KEY),
      (unset SUPABASE_URL), (unset SUPABASE_KEY);
      repeat case_decide; try done; simpl;
      (split; [by intros ? | by intros (? & ? & ? & ?)]).
  - by destruct missing_vars.
Qed.


(** ** The context and the prompt *)

Lemma append_context_part_dict (context_parts : list string) (i : nat)
    (chunk : gmap string (value F)) (md : gmap string (value F)) :
  chunk_metadata chunk = VDict md ->
  append_context_part context_parts (i, chunk)
  = Ok (context_parts ++
        ["[" +:+ pretty i +:+ "] Source: "
         +:+ py_str repr (default (default (VStr "Unknown") (md !! "filename"))
                                  (md !! "title"))
         +:+ " (" +:+ py_str repr (default (VStr "Unknown") (md !! "filename")) +:+ ")"
         +:+ newline
         +:+ py_str repr (default (VStr EmptyString) (chunk !! "content"))
         +:+ newline]).
Proof. intros Hmd. unfold append_context_part. cbn [fst snd]. by rewrite Hmd. Qed.

Lemma append_context_part_not_dict (context_parts : list string) (i : nat)
    (chunk : gmap string (value F)) :
  is_dict (chunk_metadata chunk) = false ->
  append_context_part context_parts (i, chunk)
  = Raise (AttributeError (type_name (chunk_metadata chunk))).
Proof.
  intros Hmd. unfold append_context_part. cbn [fst snd].
  by destruct (chunk_metadata chunk).
Qed.

Lemma context_loop_raises (chunks : list (gmap string (value F))) (start : nat)
    (context_parts : list string) :
  Exists (fun chunk => is_dict (chunk_metadata chunk) = false) chunks ->
  exists chunk,
    chunk ∈ chunks /\ is_dict (chunk_metadata chunk) = false /\
    for_each append_context_part (enumerate start chunks) context_parts
    = Raise (AttributeError (type_name (chunk_metadata chunk))).
Proof.
  intros Hbad. revert start context_parts.
  induction chunks as [|chunk rest IH]; intros start context_parts.
  - by apply Exists_nil in Hbad.
  - rewrite enumerate_cons. cbn [for_each].
    destruct (is_dict (chunk_metadata chunk)) eqn:Hdict.
    + destruct (chunk_metadata chunk) as [| | | | | |md] eqn:Hmd; try done.
      rewrite (append_context_part_dict _ _ _ md Hmd). run_result.
      apply Exists_cons in Hbad as [Hbad|Hbad]; [by rewrite Hmd in Hbad|].
      match goal with
      | |- context [for_each append_context_part (enumerate (S start) rest) ?acc] =>
          destruct (IH Hbad (S start) acc) as (c & Hc & Hnot & Hloop)
      end.
      exists c. split; [apply elem_of_cons; by right|]. split; [done|]. exact Hloop.
    + rewrite (append_context_part_not_dict _ _ _ Hdict).
      exists chunk. split; [apply elem_of_cons; by left|]. done.
Qed.

Lemma context_loop_ok (chunks : list (gmap string (value F))) (start : nat)
    (context_parts : list string) :
  Forall (fun chunk => is_dict (chunk_metadata chunk) = true) chunks ->
  exists new_parts,
    for_each append_context_part (enumerate start chunks) context_parts
    = Ok (context_parts ++ new_parts) /\
    length new_parts = length chunks /\
    forall i part, new_parts !! i = Some part ->
      String.prefix ("[" +:+ pretty (start + i) +:+ "] Source: ") part = true /\
      exists chunk,
        chunks !! i = Some chunk /\
        str_in (py_str repr (default (VStr EmptyString) (chunk !! "content"))) part
        = true.
Proof.
  intros Hall. revert start context_parts.
  induction Hall as [|chunk rest Hchunk _ IH]; intros start context_parts.
  - exists []. rewrite app_nil_r. split; [done|]. split; [done|].
    intros i part Hi. by rewrite lookup_nil in Hi.
  - rewrite enumerate_cons. cbn [for_each].
    destruct (chunk_metadata chunk) as [| | | | | |md] eqn:Hmd; try done.
    rewrite (append_context_part_dict _ _ _ md Hmd). run_result.
    match goal with
    | |- context [for_each append_context_part (enumerate (S start) rest) ?acc] =>
        destruct (IH (S start) acc) as (new_parts & Hloop & Hlen & Hparts);
        rewrite Hloop
    end.
    eexists (_ :: new_parts). split; [by rewrite <- app_assoc|].
    split; [simpl; by rewrite Hlen|].
    intros [|i] part Hi; simpl in Hi.
    + injection Hi as <-. rewrite Nat.add_0_r. split.
      * apply prefix_app3.
      * exists chunk. split; [done|].
        do 8 apply str_in_app_r. apply (str_in_middle EmptyString).
    + destruct (Hparts i part Hi) as [Hprefix Hchunk'].
      replace (start + S i) with (S start + i) by lia. done.
Qed.

(** X18: [_prepare_context] raises [AttributeError], naming the type
    of the offending metadata, when the metadata of some chunk, decoded
    if it is a string, is not a dict; otherwise
    it succeeds and joins, with newlines, one block per chunk in order,
    where the block of the chunk at position [i] begins with its number
    [i + 1] in brackets and contains the chunk's content. *)
Theorem prepare_context_blocks (chunks : list (gmap string (value F))) :
  (Exists (fun chunk => is_dict (chunk_metadata chunk) = false) chunks ->
   exists chunk,
     chunk ∈ chunks /\ is_dict (chunk_metadata chunk) = false /\
     _prepare_context chunks
     = Raise (AttributeError (type_name (chunk_metadata chunk)))) /\
  (Forall (fun chunk => is_dict (chunk_metadata chunk) = true) chunks ->
   exists context_parts,
     _prepare_context chunks = Ok (join newline context_parts) /\
     length context_parts = length chunks /\
     forall i part, context_parts !! i = Some part ->
       String.prefix ("[" +:+ pretty (S i) +:+ "] Source: ") part = true /\
       exists chunk,
         chunks !! i = Some chunk /\
         str_in (py_str repr (default (VStr EmptyString) (chunk !! "content"))) part
         = true).
Proof.
  unfold _prepare_context. split.
  - intros Hbad.
    destruct (context_loop_raises chunks 1 [] Hbad) as (chunk & Hin & Hnot & Hloop).
    exists chunk. split; [done|]. split; [done|]. by rewrite Hloop.
  - intros Hall.
    destruct (context_loop_ok chunks 1 [] Hall) as (new_parts & -> & Hlen & Hparts).
    exists new_parts. run_result. rewrite app_nil_l. done.
Qed.

(** X19: [generate_response] sends at most one request to the
    generation service: exactly one, with the prompt built from the
    question and the prepared context, whose outcome it returns as it
    is, when the context can be prepared; none when preparing the
    context raises, and then it raises that exception. *)
Theorem generate_response_single_request (question : string)
    (context_chunks : list (gmap string (value F))) :
  (forall context_text,
     _prepare_context context_chunks = Ok context_text ->
     generate_response question context_chunks
     = ([GenerateResponse question context_chunks;
         CallOpenRouter (_create_prompt question context_text)],
        openrouter (_create_prompt question context_text))) /\
  (forall e,
     _prepare_context context_chunks = Raise e ->
     generate_response question context_chunks
     = ([GenerateResponse question context_chunks], Raise e)).
Proof.
  unfold generate_response. rewrite traced_bind_invoke_ok. split.
  - intros context_text ->. rewrite traced_bind_quiet_ok. reflexivity.
  - intros e ->. rewrite traced_bind_quiet_raise. reflexivity.
Qed.

(** X20: the prompt contains the context and the question as they are,
    opens with the assistant's framing and ends with the answer cue. *)
Theorem prompt_embeds_question_and_context (question context : string) :
  str_in context (_create_prompt question context) = true /\
  str_in question (_create_prompt question context) = true /\
  String.prefix "You are Chatty" (_create_prompt question context) = true /\
  exists body, _create_prompt question context = body +:+ "Answer:".
Proof.
  unfold _create_prompt. split; [|split; [|split]].
  - apply str_in_middle.
  - do 2 apply str_in_app_r. apply str_in_middle.
  - reflexivity.
  - match goal with
    | |- exists body, ?a +:+ context +:+ ?b +:+ question +:+ ?c = _ =>
        let c' := eval vm_compute in
          (String.substring 0 (String.length c - 7) c) in
        exists (a +:+ context +:+ b +:+ question +:+ c')
    end.
    by rewrite !string_app_assoc.
Qed.


(** ** More on the chat handler *)

Lemma traced_bind_invoke_raise {A B} (c : call F) (e : exn) (f : A -> traced F B) :
  traced_bind (invoke c (Raise e)) f = ([c], Raise e).
Proof. reflexivity. Qed.

(** X21: the chat handler always extends the history by exactly two
    messages and keeps what was there: the user's message with the
    prompt, then one assistant message, which carries the response and
    its sources when the handler succeeded and the apology with the
    text of the exception, without sources, when it failed. *)
Theorem handle_prompt_appends_exchange (messages : list (gmap string (value F)))
    (prompt : string) :
  exists reply,
    (handle_prompt messages prompt).2
    = messages ++ [ {[ "role" := VStr "user"; "content" := VStr prompt ]}; reply ] /\
    reply !! "role" = Some (VStr "assistant") /\
    (forall response sources,
       (answer_question prompt).2 = Ok (response, sources) ->
       reply !! "content" = Some (VStr response) /\
       reply !! "sources" = Some (VStr sources)) /\
    (forall e,
       (answer_question prompt).2 = Raise e ->
       reply !! "content"
       = Some (VStr ("Sorry, I encountered an error: " +:+ exn_str e)) /\
       reply !! "sources" = None).
Proof.
  unfold handle_prompt. cbn zeta.
  destruct (answer_question prompt).2 as [[response sources]|e]; cbn [snd];
    rewrite <- app_assoc; eexists; (split; [reflexivity|]).
  - split; [reflexivity|]. split.
    + intros ? ? [= <- <-]. split; reflexivity.
    + by intros e.
  - split; [reflexivity|]. split.
    + by intros ? ?.
    + intros ? [= <-]. split; reflexivity.
Qed.

(** X22: the handler calls the generation service only after the
    search has returned at least one chunk: when embedding the question
    fails the search is not even made, and when the search fails or
    returns nothing no generation call is made. *)
Theorem generation_only_after_retrieval (prompt : string) :
  (forall e, get_embedding prompt = Raise e ->
     answer_question prompt = ([GetEmbedding prompt], Raise e)) /\
  (forall question_embedding e,
     get_embedding prompt = Ok question_embedding ->
     search_similar_chunks question_embedding None = Raise e ->
     answer_question prompt
     = ([GetEmbedding prompt; SearchSimilarChunks question_embedding], Raise e)) /\
  (0 < generation_calls (answer_question prompt).1 ->
   exists question_embedding chunk chunks,
     get_embedding prompt = Ok question_embedding /\
     search_similar_chunks question_embedding None = Ok (chunk :: chunks)).
Proof.
  assert (forall e, get_embedding prompt = Raise e ->
            answer_question prompt = ([GetEmbedding prompt], Raise e)) as Hembed_fail.
  { intros e He. unfold answer_question. by rewrite He, traced_bind_invoke_raise. }
  assert (forall question_embedding e,
            get_embedding prompt = Ok question_embedding ->
            search_similar_chunks question_embedding None = Raise e ->
            answer_question prompt
            = ([GetEmbedding prompt; SearchSimilarChunks question_embedding], Raise e))
    as Hsearch_fail.
  { intros q e Hq He. unfold answer_question.
    rewrite Hq, traced_bind_invoke_ok. cbn beta.
    by rewrite He, traced_bind_invoke_raise. }
  split; [done|]. split; [done|].
  destruct (get_embedding prompt) as [q|e] eqn:Hq.
  - destruct (search_similar_chunks q None) as [[|chunk chunks]|e] eqn:Hsearch.
    + rewrite (answer_question_unfold _ _ _ Hq Hsearch).
      unfold generation_calls. simpl. lia.
    + intros _. by exists q, chunk, chunks.
    + rewrite (Hsearch_fail q e eq_refl Hsearch).
      unfold generation_calls. simpl. lia.
  - rewrite (Hembed_fail e eq_refl). unfold generation_calls. simpl. lia.
Qed.

(** X23: when the embedding service fails on the question, the only
    call made is that one, and the assistant's message is the apology
    followed by "Error getting embedding: " and the text of the
    cause. *)
Theorem embedding_failure_reported (messages : list (gmap string (value F)))
    (prompt : string) (cause : exn) :
  openai_embeddings_create (VStr prompt) = Raise cause ->
  handle_prompt messages prompt
  = ([GetEmbedding prompt],
     (messages ++ [ {[ "role" := VStr "user"; "content" := VStr prompt ]} ]) ++
     [ {[ "role" := VStr "assistant";
          "content" := VStr ("Sorry, I encountered an error: "
                             +:+ "Error getting embedding: " +:+ exn_str cause) ]} ]).
Proof.
  intros Hcause.
  assert (get_embedding prompt
          = Raise (Exception ("Error getting embedding: " +:+ exn_str cause))) as Hembed.
  { unfold get_embedding, try_except. by rewrite Hcause. }
  unfold handle_prompt, answer_question.
  rewrite Hembed, traced_bind_invoke_raise. reflexivity.
Qed.

Lemma prepare_context_ok_dicts (chunks : list (gmap string (value F)))
    (context_text : string) :
  _prepare_context chunks = Ok context_text ->
  Forall (fun chunk => is_dict (chunk_metadata chunk) = true) chunks.
Proof.
  intros Hok. apply Forall_forall. intros chunk Hin.
  destruct (is_dict (chunk_metadata chunk)) eqn:Hdict; [done|].
  assert (Exists (fun chunk => is_dict (chunk_metadata chunk) = false) chunks) as Hbad.
  { apply Exists_exists. by exists chunk. }
  unfold _prepare_context in Hok.
  destruct (context_loop_raises chunks 1 [] Hbad) as (c & _ & _ & Hloop).
  by rewrite Hloop in Hok.
Qed.

Lemma append_source_dict (sources : list string) (i : nat)
    (chunk : gmap string (value F)) (md : gmap string (value F)) :
  chunk_metadata chunk = VDict md ->
  append_source sources (i, chunk)
  = match format_2f (default (VInt 0) (chunk !! "similarity")) with
    | Ok shown =>
        Ok (sources ++
            ["[" +:+ pretty i +:+ "] "
             +:+ py_str repr (default (default (VStr "Unknown") (md !! "filename"))
                                      (md !! "title"))
             +:+ " (" +:+ py_str repr (default (VStr "Unknown") (md !! "filename"))
             +:+ ") - Similarity: " +:+ shown])
    | Raise e => Raise e
    end.
Proof.
  intros Hmd. unfold append_source. cbn [fst snd]. rewrite Hmd. cbn [value_get].
  run_result. by destruct (format_2f _).
Qed.

Lemma sources_loop_raises (chunks : list (gmap string (value F))) (start : nat)
    (sources : list string) (e : exn) :
  Forall (fun chunk => is_dict (chunk_metadata chunk) = true) chunks ->
  for_each append_source (enumerate start chunks) sources = Raise e ->
  exists chunk,
    chunk ∈ chunks /\
    format_2f (default (VInt 0) (chunk !! "similarity")) = Raise e.
Proof.
  intros Hall. revert start sources.
  induction Hall as [|chunk rest Hchunk _ IH]; intros start sources.
  - done.
  - rewrite enumerate_cons. cbn [for_each].
    destruct (chunk_metadata chunk) as [| | | | | |md] eqn:Hmd; try done.
    rewrite (append_source_dict _ _ _ md Hmd).
    destruct (format_2f (default (VInt 0) (chunk !! "similarity"))) as [shown|e']
      eqn:Hshown; run_result.
    + intros Hloop. destruct (IH _ _ Hloop) as (c & Hc & Hfail).
      exists c. split; [apply elem_of_cons; by right | done].
    + intros [= <-]. exists chunk. split; [apply elem_of_cons; by left | done].
Qed.

(** X24: once [generate_response] has returned a response for the
    retrieved chunks, listing the sources can fail only in formatting a
    similarity: the metadata that the prompt was built from is the
    metadata the sources are read from. *)
Theorem sources_fail_only_on_similarity (question response : string)
    (chunks : list (gmap string (value F))) (e : exn) :
  (generate_response question chunks).2 = Ok response ->
  format_sources chunks = Raise e ->
  exists chunk,
    chunk ∈ chunks /\
    format_2f (default (VInt 0) (chunk !! "similarity")) = Raise e.
Proof.
  intros Hresponse Hsources.
  assert (exists context_text, _prepare_context chunks = Ok context_text)
    as [context_text Hcontext].
  { unfold generate_response in Hresponse.
    rewrite traced_bind_invoke_ok in Hresponse. cbn [snd] in Hresponse.
    destruct (_prepare_context chunks) as [context_text|e'] eqn:Hcontext;
      [by eexists|].
    by rewrite traced_bind_quiet_raise in Hresponse. }
  apply prepare_context_ok_dicts in Hcontext.
  unfold format_sources in Hsources.
  destruct (for_each append_source (enumerate 1 chunks) []) as [sources|e'] eqn:Hloop;
    run_result; [done|].
  injection Hsources as ->. by eapply sources_loop_raises.
Qed.

(** ** All chunks of a document, or none *)

Lemma enumerate_keys {A} (start : nat) (xs : list A) :
  (enumerate start xs).*1 = seq start (length xs).
Proof.
  revert start. induction xs as [|x xs IH]; intros start; [done|].
  rewrite enumerate_cons. simpl. by rewrite IH.
Qed.

(** The object that [allocate] stores at reference [i] is the chunk at
    position [i]. *)
Lemma allocate_lookup (chunks : list (gmap string (value F))) (i : nat)
    (chunk : gmap string (value F)) :
  chunks !! i = Some chunk -> (allocate chunks).1 !!! i = chunk.
Proof.
  intros Hi. unfold allocate. cbn [fst]. rewrite lookup_total_alt.
  rewrite (elem_of_list_to_map_1 (enumerate 0 chunks) i chunk); [done | |].
  - rewrite enumerate_keys. apply NoDup_seq.
  - apply list_elem_of_lookup. exists i. by rewrite enumerate_lookup, Hi.
Qed.

(** [embed_chunks] changes no field but [embedding], of any object. *)
Lemma embed_chunks_keeps_fields (h h' : gmap loc (gmap string (value F)))
    (chunks chunks' : list loc) (r : loc) (key : string) :
  embed_chunks h chunks = Ok (h', chunks') -> key <> "embedding" ->
  (h' !!! r) !! key = (h !!! r) !! key.
Proof.
  unfold embed_chunks.
  destruct (comprehension _ chunks) as [texts|e]; run_result; [|done].
  destruct (get_embeddings_batch texts) as [embeddings|e]; run_result; [|done].
  destruct (for_each _ _ h) as [h1|e] eqn:Hloop; run_result; [|done].
  intros [= <- _] Hkey.
  destruct (set_embedding_loop_spec _ _ _ _ _ Hloop) as [Hout Hin].
  destruct (decide (r ∈ take (length embeddings) (drop 0 chunks))) as [Hr|Hr].
  - destruct (Hin r Hr) as (j & e & _ & _ & _ & ->). by rewrite lookup_insert_ne.
  - by rewrite !lookup_total_alt, (Hout r Hr).
Qed.

(** C3: for one file, when the embedding step raises, the database is
    left exactly as it was, with no document row and no chunk row
    written; and in every case the chunk table afterwards is either
    what it was, or what it was followed by exactly one row for every
    chunk of the document, in order: as many rows as the document has
    chunks, the row at position [i] carrying the new document id, the
    index [i], the content and the serialized metadata of the
    document's chunk [i] and the embedding that the embedding step gave
    that chunk. *)
Theorem upload_file_all_chunks_or_none (db : database F) (file_path : string) :
  (forall doc_info e,
     process_document file_path None = Ok doc_info ->
     embed_chunks (allocate (di_chunks doc_info)).1 (allocate (di_chunks doc_info)).2
     = Raise e ->
     upload_file db file_path = (db, Raise e)) /\
  (chat_bot_document_chunks (upload_file db file_path).1 = chat_bot_document_chunks db \/
   exists doc_info h' document_id new_rows,
     process_document file_path None = Ok doc_info /\
     embed_chunks (allocate (di_chunks doc_info)).1 (allocate (di_chunks doc_info)).2
     = Ok (h', (allocate (di_chunks doc_info)).2) /\
     upload_file db file_path = ((upload_file db file_path).1, Ok document_id) /\
     chat_bot_document_chunks (upload_file db file_path).1
     = chat_bot_document_chunks db ++ new_rows /\
     length new_rows = length (di_chunks doc_info) /\
     length new_rows = di_total_chunks doc_info /\
     forall i row, new_rows !! i = Some row ->
       row_document_id row = document_id /\
       row_chunk_index row = Z.of_nat i /\
       exists chunk,
         di_chunks doc_info !! i = Some chunk /\
         chunk !! "content" = Some (row_content row) /\
         (exists metadata, chunk !! "metadata" = Some metadata /\
                           row_metadata row = json_dumps metadata) /\
         (h' !!! i) !! "embedding" = Some (row_embedding row)).
Proof.
  split.
  - intros doc_info e Hdoc Hembed. unfold upload_file. rewrite Hdoc.
    destruct (allocate (di_chunks doc_info)) as [h chunks]. simpl in Hembed.
    by rewrite Hembed.
  - unfold upload_file.
    destruct (process_document file_path None) as [doc_info|e] eqn:Hdoc; [|by left].
    destruct (allocate (di_chunks doc_info)) as [h chunks] eqn:Halloc. cbn [fst snd].
    destruct (embed_chunks h chunks) as [[h' chunks_with_embeddings]|e] eqn:Hembed;
      [|by left].
    pose proof (embed_chunks_returns_list _ _ _ _ Hembed) as ->.
    destruct (insert_document db _ _ _ _) as [[db' document_id]|e] eqn:Hdocument;
      [|by left].
    apply insert_document_chunks in Hdocument.
    destruct (insert_chunks db' document_id _) as [db''|e] eqn:Hinsert;
      cbn [fst]; [|by left].
    destruct (insert_chunks_rows _ _ _ _ Hinsert) as (_ & new_rows & Hrows & Hlen & Hrow).
    assert (h = (allocate (di_chunks doc_info)).1 /\
            chunks = seq 0 (length (di_chunks doc_info))) as [Hh Hchunks].
    { split; [by rewrite Halloc|]. unfold allocate in Halloc. congruence. }
    assert (length new_rows = length (di_chunks doc_info)) as Hlength.
    { rewrite Hlen. unfold deref. by rewrite length_fmap, Hchunks, length_seq. }
    right. exists doc_info, h', document_id, new_rows.
    rewrite Hrows, Hdocument, Halloc. cbn [fst snd]. do 5 (split; [done|]).
    split; [by rewrite (process_document_total_chunks _ _ _ Hdoc)|].
    intros i row Hi.
    destruct (Hrow i row Hi) as (Hid & Hidx & c & Hc & Hcontent & Hmeta & Hemb).
    split; [done|]. split; [done|].
    assert (i < length (di_chunks doc_info)) as Hlt.
    { rewrite <- Hlength. by eapply lookup_lt_Some. }
    destruct (lookup_lt_is_Some_2 _ _ Hlt) as [chunk Hchunk].
    unfold deref in Hc. rewrite list_lookup_fmap, Hchunks, lookup_seq_lt in Hc by done.
    simpl in Hc. injection Hc as <-.
    assert (forall key, key <> "embedding" -> (h' !!! i) !! key = chunk !! key) as Hsame.
    { intros key Hkey.
      etrans; [exact (embed_chunks_keeps_fields _ _ _ _ i key Hembed Hkey)|].
      rewrite Hh. exact (f_equal (fun c => c !! key) (allocate_lookup _ _ _ Hchunk)). }
    exists chunk. split; [done|].
    rewrite <- !Hsame by done. done.
Qed.

(** ** Generation after retrieval *)






End Chatty.

(** * The processor with the splitter that [__init__] builds *)

(** C2, as the code has it: a header section is re-split exactly when
    the number of characters of its text exceeds [CHUNK_SIZE], and is
    otherwise kept whole as its only sub-chunk; the re-split is done by
    the splitter that [__init__] builds, which is [TokenTextSplitter]
    with this same [CHUNK_SIZE] as its chunk size, [CHUNK_OVERLAP] as
    its overlap and the encoding [cl100k_base]; the chunks of the
    Markdown path are the trimmed sub-chunks of the sections, in
    order. *)
Theorem section_resplit_by_character_length {F : Type} (CHUNK_SIZE CHUNK_OVERLAP : Z)
    (markdown_splitter : string -> result (list Document))
    (TokenTextSplitter : Z -> Z -> string -> string -> result (list string))
    (text filename title : string) (header_splits : list Document) :
  markdown_splitter text = Ok header_splits ->
  (forall split, split ∈ header_splits ->
     ((CHUNK_SIZE < Z.of_nat (String.length (page_content split)))%Z ->
      sub_chunks_of CHUNK_SIZE
        (init_token_splitter TokenTextSplitter CHUNK_SIZE CHUNK_OVERLAP) split
      = TokenTextSplitter CHUNK_SIZE CHUNK_OVERLAP "cl100k_base" (page_content split)) /\
     ((Z.of_nat (String.length (page_content split)) <= CHUNK_SIZE)%Z ->
      sub_chunks_of CHUNK_SIZE
        (init_token_splitter TokenTextSplitter CHUNK_SIZE CHUNK_OVERLAP) split
      = Ok [page_content split])) /\
  (forall sub_chunk_lists,
     comprehension
       (sub_chunks_of CHUNK_SIZE
          (init_token_splitter TokenTextSplitter CHUNK_SIZE CHUNK_OVERLAP))
       header_splits
     = Ok sub_chunk_lists ->
     exists chunks : list (gmap string (value F)),
       _chunk_markdown_semantic CHUNK_SIZE markdown_splitter
         (init_token_splitter TokenTextSplitter CHUNK_SIZE CHUNK_OVERLAP)
         text filename title = Ok chunks /\
       (fun chunk => chunk !! "content") <$> chunks
       = (fun x => Some (VStr (strip x))) <$> concat sub_chunk_lists).
Proof.
  intros Hsplit. split.
  - intros split _. unfold sub_chunks_of, exceeds_chunk_size. split; intros Hlen.
    + by rewrite bool_decide_eq_true_2.
    + rewrite bool_decide_eq_false_2; [done | lia].
  - intros sub_chunk_lists Hsubs.
    destruct (markdown_loop_contents (F:=F) CHUNK_SIZE _ filename title
                header_splits sub_chunk_lists ([], 0) Hsubs)
      as (st' & Hloop & Hcontents).
    unfold _chunk_markdown_semantic, markdown_body. rewrite Hsplit.
    unfold mbind, result_bind, mret, result_ret. cbn beta iota.
    rewrite Hloop. cbn beta iota. eexists. split; [done|].
    rewrite <- list_fmap_compose. simpl in Hcontents. rewrite <- Hcontents.
    apply list_fmap_ext. intros i chunk _. apply metadata_set_content.
Qed.


(** * The properties on concrete inputs *)

(** C1 on the two-section Markdown text: two chunks, numbered 0 and 1,
    each with [total_chunks] = 2. *)
Lemma chunk_text_indices_dense_sample :
  match chunk_text (F:=Z) 800 sample_markdown_splitter (sample_token_splitter 800)
          sample_markdown "guide.md" None with
  | Ok chunks =>
      length chunks = 2 /\
      (fun chunk => metadata_get chunk "chunk_index") <$> chunks
      = (fun i => Some (VInt (Z.of_nat i))) <$> seq 0 (length chunks) /\
      Forall (fun chunk =>
                metadata_get chunk "total_chunks"
                = Some (VInt (Z.of_nat (length chunks))))
             chunks
  | Raise _ => False
  end.
Proof.
  assert (length <$> to_option (chunk_text (F:=Z) 800 sample_markdown_splitter
                                 (sample_token_splitter 800) sample_markdown
                                 "guide.md" None) = Some 2) as Hlen
    by (vm_compute; reflexivity).
  destruct (chunk_text (F:=Z) 800 sample_markdown_splitter (sample_token_splitter 800)
              sample_markdown "guide.md" None) as [chunks|e] eqn:Hrun.
  - split; [by injection Hlen|].
    exact (chunk_text_indices_dense 800 sample_markdown_splitter
             (sample_token_splitter 800) sample_markdown "guide.md" None chunks Hrun).
  - discriminate Hlen.
Defined.

(** C2 as stated fails: a section of 1213 characters and some two
    hundred tokens that spells out a special token is longer than a
    chunk size of 800 for the code, which hands it to the token splitter,
    and is not longer than 800 when measured in tokens. The splitter
    refuses the text, so the code raises where the criterion of the
    claim keeps the section as one chunk. *)
Lemma resplit_criterion_counts_characters :
  let content := sample_marked_section in
  let token_splitter := init_token_splitter sample_TokenTextSplitter 800 200 in
  String.length content = 1213 /\
  sample_token_count content = 205 /\
  exceeds_chunk_size 800 content = true /\
  exceeds_in_tokens sample_token_count 800 content = false /\
  sub_chunks_of 800 token_splitter {| page_content := content; metadata := ∅ |}
  = Raise (ValueError "Encountered text corresponding to disallowed special token") /\
  sub_chunks_by_token_count sample_token_count 800 token_splitter content
  = Ok [content] /\
  chunk_text (F:=Z) 800 sample_markdown_splitter token_splitter
    sample_long_marked_markdown "claims.md" None
  = Raise (ValueError "Encountered text corresponding to disallowed special token") /\
  (forall token_splitter',
     sub_chunks_of 800 token_splitter' {| page_content := content; metadata := ∅ |}
     = token_splitter' content).
Proof.
  cbv zeta. split; [by vm_compute|]. split; [by vm_compute|].
  split; [by vm_compute|]. split; [by vm_compute|].
  split; [by vm_compute|]. split; [by vm_compute|]. split; [by vm_compute|].
  intros token_splitter'. unfold sub_chunks_of. cbn [page_content].
  replace (exceeds_chunk_size 800 sample_marked_section) with true
    by (by vm_compute).
  reflexivity.
Qed.

(** C2 as the code has it, with a chunk size of 20: both sections of the
    sample text are longer and are cut into pieces by the splitter built
    with that size. *)
Lemma section_resplit_sample :
  exists header_splits,
    sample_markdown_splitter sample_markdown = Ok header_splits /\
    length header_splits = 2 /\
    (forall split, split ∈ header_splits ->
       ((20 < Z.of_nat (String.length (page_content split)))%Z ->
        sub_chunks_of 20 (init_token_splitter sample_TokenTextSplitter 20 5) split
        = sample_TokenTextSplitter 20 5 "cl100k_base" (page_content split)) /\
       ((Z.of_nat (String.length (page_content split)) <= 20)%Z ->
        sub_chunks_of 20 (init_token_splitter sample_TokenTextSplitter 20 5) split
        = Ok [page_content split])) /\
    (forall sub_chunk_lists,
       comprehension
         (sub_chunks_of 20 (init_token_splitter sample_TokenTextSplitter 20 5))
         header_splits
       = Ok sub_chunk_lists ->
       exists chunks : list (gmap string (value Z)),
         _chunk_markdown_semantic 20 sample_markdown_splitter
           (init_token_splitter sample_TokenTextSplitter 20 5)
           sample_markdown "guide.md" "guide" = Ok chunks /\
         (fun chunk => chunk !! "content") <$> chunks
         = (fun x => Some (VStr (strip x))) <$> concat sub_chunk_lists).
Proof.
  eexists. split; [vm_compute; reflexivity|]. split; [vm_compute; reflexivity|].
  apply (section_resplit_by_character_length (F:=Z) 20 5 sample_markdown_splitter
           sample_TokenTextSplitter sample_markdown "guide.md" "guide").
  vm_compute. reflexivity.
Defined.

(** C3 on a file whose second chunk is blank: the embedding service
    rejects it, and the database stays empty. *)
Lemma upload_file_embedding_failure_sample :
  upload_file 8 sample_markdown_splitter (sample_token_splitter 8)
    sample_pdf_text sample_markdown_text sample_getsize sample_embeddings_create
    sample_json_dumps sample_generated_id no_document_fault no_chunk_fault
    empty_database "docs/notes.pdf"
  = (empty_database,
     Raise (Exception "Error getting batch embeddings: input must not be empty")).
Proof.
  eapply (proj1 (upload_file_all_chunks_or_none 8 sample_markdown_splitter
                   (sample_token_splitter 8) sample_pdf_text sample_markdown_text
                   sample_getsize sample_embeddings_create sample_json_dumps
                   sample_generated_id no_document_fault no_chunk_fault
                   empty_database "docs/notes.pdf")).
  - vm_compute. reflexivity.
  - vm_compute. reflexivity.
Defined.



(** C5 on a text with words of two groups: the claims group wins. *)
Lemma content_type_sample :
  content_type (_extract_semantic_info "Workers Compensation LAW") = "claims".
Proof.
  apply (content_type_first_matching_group "Workers Compensation LAW").
  vm_compute. reflexivity.
Defined.

(** C6 with a header splitter that fails on a Markdown file. *)
Lemma header_split_failure_sample :
  chunk_text (F:=Z) 800 failing_markdown_splitter (sample_token_splitter 800)
    sample_markdown "guide.md" None
  = _chunk_general_semantic (sample_token_splitter 800) sample_markdown "guide.md" "guide".
Proof.
  apply (header_split_failure_falls_back (F:=Z) 800 failing_markdown_splitter
           (sample_token_splitter 800) sample_markdown "guide.md" None
           (Exception "header split failed")).
  reflexivity.
Defined.

(** C7 on the two spellings of the specification. *)
Lemma key_topics_sample :
  key_topics (_extract_semantic_info "Workers Compensation")
  = key_topics (_extract_semantic_info "workers compensation").
Proof.
  apply (key_topics_case_insensitive "Workers Compensation" "workers compensation").
  vm_compute. reflexivity.
Defined.

(** C8 with the sample splitters, on a Markdown and on a PDF name. *)
Lemma empty_text_sample :
  chunk_text (F:=Z) 800 sample_markdown_splitter (sample_token_splitter 800)
    EmptyString "empty.md" None = Ok [] /\
  chunk_text (F:=Z) 800 sample_markdown_splitter (sample_token_splitter 800)
    EmptyString "empty.pdf" (Some "Empty") = Ok [].
Proof.
  split; apply (empty_text_no_chunks (F:=Z)); try reflexivity;
    intros header_splits; vm_compute; by intros [= <-].
Defined.

(** C9 on a store of three objects, two of them chunks. *)
Lemma embed_chunks_sample :
  exists h',
    embed_chunks sample_embeddings_create sample_store [0; 1] = Ok (h', [0; 1]) /\
    h' !!! 0 = <["embedding" := VList [VFloat 6%Z]]> (sample_store !!! 0) /\
    h' !!! 1 = <["embedding" := VList [VFloat 7%Z]]> (sample_store !!! 1) /\
    h' !! 2 = sample_store !! 2.
Proof.
  destruct (embed_chunks_adds_only_embedding sample_embeddings_create sample_store
              [0; 1] [VStr "Injury"; VStr "claims."] [[6%Z]; [7%Z]])
    as (h' & Hrun & Hchunk & _ & Hother).
  - vm_compute. reflexivity.
  - vm_compute. reflexivity.
  - reflexivity.
  - assert (NoDup [0; 1]) as Hnodup by (apply NoDup_ListNoDup; repeat constructor;
                                        simpl; intuition lia).
    exists h'. split; [exact Hrun|].
    destruct (Hchunk 0 0 eq_refl) as (j0 & e0 & _ & _ & He0 & Hh0 & Hj0).
    destruct (Hchunk 1 1 eq_refl) as (j1 & e1 & _ & _ & He1 & Hh1 & Hj1).
    rewrite (Hj0 Hnodup) in He0. rewrite (Hj1 Hnodup) in He1.
    injection He0 as <-. injection He1 as <-.
    split; [exact Hh0|]. split; [exact Hh1|].
    apply Hother. rewrite !elem_of_cons, elem_of_nil. lia.
Defined.

(** C10 on two chunks whose metadata both say [chunk_index] = 7: the
    rows are numbered 0 and 1. *)
Lemma insert_chunks_sample :
  exists db',
    insert_chunks sample_json_dumps no_chunk_fault empty_database "doc-0"
      sample_embedded_chunks = Ok db' /\
    row_chunk_index <$> chat_bot_document_chunks db' = [0%Z; 1%Z].
Proof.
  destruct (insert_chunks_index_is_position sample_json_dumps no_chunk_fault
              empty_database "doc-0" sample_embedded_chunks) as [Hrows Htotal].
  destruct Htotal as [db' Hdb'].
  - repeat constructor; by eexists.
  - reflexivity.
  - exists db'. split; [exact Hdb'|].
    destruct (Hrows db' Hdb') as (new_rows & -> & Hindex & _). exact Hindex.
Defined.

(** * The further properties on concrete inputs *)

(** X1 on the two-section Markdown text. *)
Lemma chunk_contents_trimmed_sample :
  match chunk_text (F:=Z) 800 sample_markdown_splitter (sample_token_splitter 800)
          sample_markdown "guide.md" None with
  | Ok chunks =>
      Forall (fun chunk =>
                exists s, chunk !! "content" = Some (VStr s) /\
                          strip s = s /\ starts_clean s)
             chunks
  | Raise _ => False
  end.
Proof.
  assert (length <$> to_option (chunk_text (F:=Z) 800 sample_markdown_splitter
                                 (sample_token_splitter 800) sample_markdown
                                 "guide.md" None) = Some 2) as Hlen
    by (vm_compute; reflexivity).
  destruct (chunk_text (F:=Z) 800 sample_markdown_splitter (sample_token_splitter 800)
              sample_markdown "guide.md" None) as [chunks|e] eqn:Hrun.
  - exact (chunk_contents_trimmed 800 sample_markdown_splitter
             (sample_token_splitter 800) sample_markdown "guide.md" None chunks Hrun).
  - discriminate Hlen.
Defined.

(** X2 on the same text, cut into pieces of 20 characters. *)
Lemma markdown_chunks_metadata_sample :
  match markdown_body (F:=Z) 20 sample_markdown_splitter (sample_token_splitter 20)
          sample_markdown "guide.md" "guide" with
  | Ok chunks =>
      length chunks = 4 /\
      Forall (fun chunk =>
                metadata_get chunk "filename" = Some (VStr "guide.md") /\
                metadata_get chunk "title" = Some (VStr "guide") /\
                metadata_get chunk "file_type" = Some (VStr "markdown") /\
                exists i n,
                  metadata_get chunk "sub_chunk_index" = Some (VInt (Z.of_nat i)) /\
                  metadata_get chunk "total_sub_chunks" = Some (VInt (Z.of_nat n)) /\
                  i < n)
             chunks
  | Raise _ => False
  end.
Proof.
  assert (length <$> to_option (markdown_body (F:=Z) 20 sample_markdown_splitter
                                 (sample_token_splitter 20) sample_markdown
                                 "guide.md" "guide") = Some 4) as Hlen
    by (vm_compute; reflexivity).
  destruct (markdown_body (F:=Z) 20 sample_markdown_splitter (sample_token_splitter 20)
              sample_markdown "guide.md" "guide") as [chunks|e] eqn:Hrun.
  - split; [by injection Hlen|].
    exact (markdown_chunks_metadata 20 sample_markdown_splitter
             (sample_token_splitter 20) sample_markdown "guide.md" "guide" chunks Hrun).
  - discriminate Hlen.
Defined.

(** X3 on the same text with a chunk size of 800 and a token splitter
    that fails on everything. *)
Lemma short_sections_sample :
  exists chunks : list (gmap string (value Z)),
    _chunk_markdown_semantic 800 sample_markdown_splitter
      (fun _ => Raise (Exception "tokenizer unavailable"))
      sample_markdown "guide.md" "guide" = Ok chunks /\
    length chunks = 2.
Proof.
  destruct (sample_markdown_splitter sample_markdown) as [header_splits|e] eqn:Hsplit;
    [|discriminate Hsplit].
  assert (Forall (short_section 800) header_splits /\ length header_splits = 2)
    as [Hshort Hlen].
  { vm_compute in Hsplit. injection Hsplit as <-.
    split; [|reflexivity]. repeat constructor; unfold short_section; simpl; lia. }
  destruct (short_sections_one_chunk_each (F:=Z) 800 sample_markdown_splitter
              (fun _ => Raise (Exception "tokenizer unavailable"))
              sample_markdown "guide.md" "guide" header_splits Hsplit Hshort)
    as (chunks & Hrun & Hlength & _).
  exists chunks. split; [exact Hrun | by rewrite Hlength].
Defined.

(** X4 on a section that spells out a special token, with a chunk size
    of 20. *)
Lemma section_split_failure_sample :
  _chunk_markdown_semantic (F:=Z) 20 sample_markdown_splitter (sample_token_splitter 20)
    sample_marked_markdown "tokens.md" "tokens"
  = _chunk_general_semantic (sample_token_splitter 20)
      sample_marked_markdown "tokens.md" "tokens".
Proof.
  pose (section := {| page_content := "The marker <|endoftext|> closes a document.";
                      metadata := {[ "Header 1" := "Tokens" ]} |}).
  assert (sample_markdown_splitter sample_marked_markdown = Ok [section]) as Hsplit
    by (vm_compute; reflexivity).
  assert (section ∈ [section]) as Hin by apply list_elem_of_here.
  assert (20 < Z.of_nat (String.length (page_content section)))%Z as Hlong
    by (simpl; lia).
  assert (sample_token_splitter 20 (page_content section)
          = Raise (ValueError "Encountered text corresponding to disallowed special token"))
    as Hfail by (vm_compute; reflexivity).
  exact (proj1 (section_split_failure_falls_back (F:=Z) 20 sample_markdown_splitter
                  (sample_token_splitter 20) sample_marked_markdown "tokens.md" "tokens"
                  [section] section _ Hsplit Hin Hlong Hfail)).
Defined.

(** X5 on a text whose second piece of eight characters is blank. *)
Lemma general_path_sample :
  exists chunks : list (gmap string (value Z)),
    _chunk_general_semantic (sample_token_splitter 8)
      "Injury          claims." "notes.pdf" "notes" = Ok chunks /\
    length chunks = 3 /\
    (fun chunk => chunk !! "content") <$> chunks
    = [Some (VStr "Injury"); Some (VStr EmptyString); Some (VStr "claims.")].
Proof.
  destruct (general_path_one_chunk_per_piece (F:=Z) (sample_token_splitter 8)
              "Injury          claims." "notes.pdf" "notes"
              ["Injury  "; "        "; "claims."])
    as (chunks & Hrun & Hlen & Hcontents & _).
  - vm_compute. reflexivity.
  - exists chunks. split; [exact Hrun|]. split; [exact Hlen|]. exact Hcontents.
Defined.

(** X7 on the sample PDF. *)
Lemma process_document_sample :
  match process_document (F:=Z) 800 sample_markdown_splitter (sample_token_splitter 800)
          sample_pdf_text sample_markdown_text sample_getsize "docs/guide.pdf" None with
  | Ok doc =>
      (di_filename doc, di_title doc, di_content_type doc, di_total_chunks doc)
      = ("guide.pdf", "guide", ".pdf", 1) /\
      di_total_chunks doc = length (di_chunks doc) /\
      Forall (fun chunk =>
                metadata_get chunk "filename" = Some (VStr (di_filename doc)) /\
                metadata_get chunk "title" = Some (VStr (di_title doc)) /\
                metadata_get chunk "total_chunks"
                = Some (VInt (Z.of_nat (di_total_chunks doc))))
             (di_chunks doc)
  | Raise _ => False
  end.
Proof.
  assert ((fun doc => (di_filename doc, di_title doc, di_content_type doc,
                       di_total_chunks doc))
            <$> to_option (process_document (F:=Z) 800 sample_markdown_splitter
                             (sample_token_splitter 800) sample_pdf_text
                             sample_markdown_text sample_getsize "docs/guide.pdf" None)
          = Some ("guide.pdf", "guide", ".pdf", 1)) as Hfields
    by (vm_compute; reflexivity).
  destruct (process_document (F:=Z) 800 sample_markdown_splitter
              (sample_token_splitter 800) sample_pdf_text sample_markdown_text
              sample_getsize "docs/guide.pdf" None) as [doc|e] eqn:Hrun.
  - destruct (process_document_consistent 800 sample_markdown_splitter
                (sample_token_splitter 800) sample_pdf_text sample_markdown_text
                sample_getsize "docs/guide.pdf" None doc Hrun)
      as (_ & _ & _ & Htotal & Hchunks).
    split; [simpl in Hfields; congruence|]. split; [exact Htotal | exact Hchunks].
  - discriminate Hfields.
Defined.

(** X9 on a store whose second chunk has no content, with a service
    that would fail anyway. *)
Lemma embed_chunks_missing_content_sample :
  embed_chunks failing_embeddings_create sample_store_without_content [0; 1]
  = Raise (KeyError "content").
Proof.
  apply (embed_chunks_missing_content failing_embeddings_create
           sample_store_without_content [0; 1] 1).
  - rewrite !elem_of_cons. auto.
  - vm_compute. reflexivity.
Defined.

(** X10 with the service that answers with one vector too many. *)
Lemma embed_chunks_too_many_vectors_sample :
  embed_chunks long_embeddings_create sample_store [0; 1] = Raise IndexError.
Proof.
  apply (embed_chunks_too_many_vectors long_embeddings_create sample_store [0; 1]
           [VStr "Injury"; VStr "claims."] [[6%Z]; [7%Z]; [0%Z]]).
  - vm_compute. reflexivity.
  - vm_compute. reflexivity.
  - simpl. lia.
Defined.

(** X11 with the service that answers with one vector too few: the
    second chunk is left without an embedding. *)
Lemma embed_chunks_fewer_vectors_sample :
  exists h',
    embed_chunks short_embeddings_create sample_store [0; 1] = Ok (h', [0; 1]) /\
    h' !!! 0 = <["embedding" := VList [VFloat 6%Z]]> (sample_store !!! 0) /\
    h' !! 1 = sample_store !! 1.
Proof.
  destruct (embed_chunks_fewer_vectors short_embeddings_create sample_store [0; 1]
              [VStr "Injury"; VStr "claims."] [[6%Z]])
    as (h' & Hrun & Hset & Hkept).
  - vm_compute. reflexivity.
  - vm_compute. reflexivity.
  - simpl. lia.
  - apply NoDup_ListNoDup. repeat constructor; simpl; intuition lia.
  - exists h'. split; [exact Hrun|]. split.
    + exact (Hset 0 0 [6%Z] eq_refl eq_refl).
    + apply (Hkept 1 1 eq_refl). simpl. lia.
Defined.

(** X12 on chunks of which the second has no embedding. *)
Lemma insert_chunks_missing_field_sample :
  exists key,
    key ∈ ["content"; "metadata"; "embedding"] /\
    insert_chunks sample_json_dumps no_chunk_fault empty_database "doc-0"
      sample_unembedded_chunks = Raise (KeyError key).
Proof.
  apply (insert_chunks_missing_field sample_json_dumps no_chunk_fault empty_database
           "doc-0" sample_unembedded_chunks
           {[ "content" := VStr "claims."; "metadata" := VDict ∅ ]} "embedding").
  - unfold sample_unembedded_chunks. rewrite !elem_of_cons. auto.
  - rewrite !elem_of_cons. auto.
  - vm_compute. reflexivity.
Defined.

(** X13 on the sample PDF and the empty database. *)
Lemma upload_then_query_sample :
  exists db',
    upload_file 800 sample_markdown_splitter (sample_token_splitter 800) sample_pdf_text
      sample_markdown_text sample_getsize sample_embeddings_create sample_json_dumps
      sample_generated_id no_document_fault no_chunk_fault empty_database
      "docs/guide.pdf" = (db', Ok "doc-0") /\
    get_chunk_count no_select_fault db' "doc-0" = Ok 1.
Proof.
  eexists. split; [vm_compute; reflexivity|].
  match goal with
  | |- get_chunk_count _ ?db' _ = _ =>
      destruct (upload_then_query 800 sample_markdown_splitter
                  (sample_token_splitter 800) sample_pdf_text sample_markdown_text
                  sample_getsize sample_embeddings_create sample_json_dumps
                  sample_generated_id no_document_fault no_chunk_fault no_select_fault
                  empty_database db' "docs/guide.pdf" "doc-0")
        as (doc & Hdoc & Hcount & _)
  end.
  - vm_compute. reflexivity.
  - reflexivity.
  - constructor.
  - constructor.
  - vm_compute. reflexivity.
Defined.

(** X14 on the sample PDF with a store that refuses the chunk insert:
    the document row is there, without chunk rows. *)
Lemma upload_file_keeps_document_row_sample :
  exists db1,
    upload_file 800 sample_markdown_splitter (sample_token_splitter 800) sample_pdf_text
      sample_markdown_text sample_getsize sample_embeddings_create sample_json_dumps
      sample_generated_id no_document_fault refuse_chunks empty_database
      "docs/guide.pdf" = (db1, Raise (Exception "chunk insert refused")) /\
    length (chat_bot_documents db1) = 1 /\
    chat_bot_document_chunks db1 = [].
Proof.
  pose (db1 := {| chat_bot_documents :=
                    [{| doc_id := "doc-0"; doc_filename := "guide.pdf";
                        doc_title := "guide"; doc_content_type := ".pdf";
                        doc_file_size := 1024 |}];
                  chat_bot_document_chunks := [] |} : database Z).
  pose proof (fun doc h' =>
                upload_file_keeps_document_row 800 sample_markdown_splitter
                  (sample_token_splitter 800) sample_pdf_text sample_markdown_text
                  sample_getsize sample_embeddings_create sample_json_dumps
                  sample_generated_id no_document_fault refuse_chunks
                  empty_database db1 "docs/guide.pdf" doc h' "doc-0"
                  (Exception "chunk insert refused")) as Hkeeps.
  edestruct Hkeeps as (Hrun & _ & Hdocs & Hrows).
  - vm_compute. reflexivity.
  - vm_compute. reflexivity.
  - vm_compute. reflexivity.
  - vm_compute. reflexivity.
  - exists db1. split; [exact Hrun|]. split; reflexivity.
Defined.

(** X23 with the service that is out of quota. *)
Lemma embedding_failure_reported_sample :
  handle_prompt failing_embeddings_create 5 0%Z sample_match_documents
    sample_json_loads sample_repr sample_openrouter sample_format_2f
    [] "How do I appeal?"
  = ([GetEmbedding "How do I appeal?"],
     [ {[ "role" := VStr "user"; "content" := VStr "How do I appeal?" ]};
       {[ "role" := VStr "assistant";
          "content" := VStr ("Sorry, I encountered an error: "
                             +:+ "Error getting embedding: quota exceeded") ]} ]).
Proof.
  apply (embedding_failure_reported failing_embeddings_create 5 0%Z
           sample_match_documents sample_json_loads sample_repr sample_openrouter
           sample_format_2f [] "How do I appeal?" (Exception "quota exceeded")).
  reflexivity.
Defined.

(** X24 on the sample retrieval result with the formatter that rejects
    its similarity. *)
Lemma sources_fail_only_on_similarity_sample :
  exists chunk,
    chunk ∈ [sample_result] /\
    failing_format_2f (default (VInt 0) (chunk !! "similarity"))
    = Raise (ValueError "Unknown format code 'f'").
Proof.
  apply (sources_fail_only_on_similarity sample_json_loads sample_repr sample_openrouter
           failing_format_2f "How do I appeal?" "You may appeal within 28 days [1]."
           [sample_result]).
  - vm_compute. reflexivity.
  - vm_compute. reflexivity.
Defined.
